(** * WTL-S-LCARS: device status and lifecycle reconciliation

    A shallow embedding of the two controllers of the dashboard backend
    that the specification is about:

    - [backend/api/minecraft.py]: detection of the game server process and
      the start / stop / restart escalation, plus the log endpoint;
    - [backend/api/printer.py]: the printer status cache, its three writers
      (MQTT push, HTTP poll, manual override), the status read and the
      control endpoints.

    Python code is embedded in a state-and-exception monad: a computation
    takes the process state (module globals plus the outside world) and
    returns the new state together with either a value or the exception
    that escaped.  Every call that leaves the process is appended to a
    trace, so that statements of the form "no action was issued" or "three
    actions, in this order" are statements about that trace. *)

From Stdlib Require Import ZArith Ascii String List Bool Lia DecimalString.
From stdpp Require Import base gmap strings list.

Set Warnings "-register-all".

(** ** Python values and control flow *)

Module Py.

(** An exception is represented by its message, [str(e)], which is the
    only thing the handlers of this code base ever look at. *)
Definition exn : Type := string.

Inductive outcome (A : Type) : Type :=
| Returned (a : A)
| Raised (e : exn).
Arguments Returned {A} a.
Arguments Raised {A} e.

(** Computations over a state [S]. *)
Definition M (S A : Type) : Type := S -> S * outcome A.

Definition ret {S A} (a : A) : M S A := fun s => (s, Returned a).

Definition raise {S A} (e : exn) : M S A := fun s => (s, Raised e).

Definition bind {S A B} (m : M S A) (k : A -> M S B) : M S B :=
  fun s =>
    match m s with
    | (s', Returned a) => k a s'
    | (s', Raised e) => (s', Raised e)
    end.

(** [try: m  except Exception as e: h e].  State changes made by [m]
    before it raised are kept, as in Python. *)
Definition try_except {S A} (m : M S A) (h : exn -> M S A) : M S A :=
  fun s =>
    match m s with
    | (s', Raised e) => h e s'
    | (s', Returned a) => (s', Returned a)
    end.

(** Run [m] and reify how it ended; never raises. *)
Definition attempt {S A} (m : M S A) : M S (outcome A) :=
  fun s => let '(s', r) := m s in (s', Returned r).

(** JSON data, as produced by [json.loads] / [request.get_json] and as
    consumed by [jsonify].  Numbers are integers; objects are Python
    dicts. *)
Inductive json : Type :=
| JNull
| JBool (b : bool)
| JNum (z : Z)
| JStr (s : string)
| JArr (l : list json)
| JObj (m : gmap string json).

(** A Flask response: the dict literal handed to [jsonify], in source
    order, and the HTTP status code. *)
Record response : Type := Response { body : list (string * json); code : Z }.

Definition jsonify (b : list (string * json)) : response := Response b 200.
Definition jsonify_code (b : list (string * json)) (c : Z) : response :=
  Response b c.

(** [needle in haystack] on [str]. *)
Fixpoint contains (needle haystack : string) : bool :=
  String.prefix needle haystack
  || match haystack with
     | EmptyString => false
     | String _ rest => contains needle rest
     end.

Definition lower_ascii (c : ascii) : ascii :=
  let n := nat_of_ascii c in
  if (65 <=? n)%nat && (n <=? 90)%nat then ascii_of_nat (n + 32) else c.

(** [s.lower()], on the ASCII letters. *)
Fixpoint lower (s : string) : string :=
  match s with
  | EmptyString => EmptyString
  | String c rest => String (lower_ascii c) (lower rest)
  end.

Fixpoint endswith_slash (s : string) : bool :=
  match s with
  | EmptyString => false
  | String c EmptyString => Ascii.eqb c "/"
  | String _ rest => endswith_slash rest
  end.

(** [os.path.join(a, b)] on POSIX. *)
Definition os_path_join (a b : string) : string :=
  if String.prefix "/" b then b
  else if String.eqb a "" || endswith_slash a then a ++ b
  else a ++ "/" ++ b.

(** [l[i:]] with Python's treatment of a negative start. *)
Definition slice_from {A} (i : Z) (l : list A) : list A :=
  if (i <? 0)%Z
  then drop (Z.to_nat (Z.max 0 (Z.of_nat (length l) + i))) l
  else drop (Z.to_nat i) l.

(** [str(n)] for a non-negative integer. *)
Definition str_of_N (n : N) : string := NilZero.string_of_uint (N.to_uint n).

Definition dquote : string := String "034"%char EmptyString.
Definition newline : string := String "010"%char EmptyString.

End Py.

Import Py.

Declare Scope py_scope.
Delimit Scope py_scope with py.
Notation "x <- m ;; k" := (bind m (fun x => k))
  (at level 100, m at next level, right associativity) : py_scope.
Notation "m ;;; k" := (bind m (fun _ => k))
  (at level 100, right associativity) : py_scope.
Open Scope py_scope.
Open Scope string_scope.

(** ** The game server controller ([backend/api/minecraft.py]) *)

Module Minecraft.

(** Module-level configuration; the first five come from the environment. *)
Record config : Type := Config {
  MC_SERVER_DIR : string;
  MC_SERVER_JAR : string;
  MC_SERVER_USER : string;
  MC_SERVER_SCREEN : string;
  MC_RCON_PASSWORD : string
}.

Definition default_config : config :=
  Config "/opt/minecraft" "paper.jar" "minecraft" "mcserver" "".

Definition MC_SERVER_SERVICE : string := "minecraft".
Definition MC_RCON_HOST : string := "127.0.0.1".
Definition MC_RCON_PORT : N := 25575.

(** What [subprocess.run] returns. *)
Record completed : Type := Completed {
  returncode : Z;
  stdout : string;
  stderr : string
}.

(** One item of [psutil.process_iter(['pid', 'name', 'cmdline'])]:
    [name] and [cmdline] are [None] when psutil could not read them. *)
Record proc_info : Type := ProcInfo {
  pid : Z;
  name : option string;
  cmdline : option (list string)
}.

(** Result of [int(request.args.get('lines', 50))]. *)
Inductive lines_arg : Type :=
| LinesAbsent
| LinesInt (z : Z)
| LinesInvalid (e : exn).

(** Calls that leave the process, as the trace records them. *)
Inductive event : Type :=
| ERun (argv : list string) (timeout : nat)
| EExists (path : string)
| EProcessIter
| EProcess (p : Z)
| ETerminate (p : Z)
| EWait (p : Z) (timeout : nat)
| EKill (p : Z)
| ESleep (secs : nat)
| EReadLines (path : string).

#[export] Instance event_eq_dec : EqDecision event.
Proof. solve_decision. Defined.

(** The machine the backend runs on.  [W] is the state of everything
    outside the Python process; each capability says how one library call
    answers in a given outside state and what outside state it leaves. *)
Class Host (W : Type) : Type := {
  host_run : list string -> nat -> W -> W * outcome completed;
  host_exists : string -> W -> bool;
  host_process_iter : W -> W * (list proc_info * option exn);
  host_process : Z -> W -> W * outcome unit;
  host_terminate : Z -> W -> W * outcome unit;
  host_wait : Z -> nat -> W -> W * outcome unit;
  host_kill : Z -> W -> W * outcome unit;
  host_sleep : nat -> W -> W;
  host_readlines : string -> W -> W * outcome (list string)
}.

Record state (W : Type) : Type := State { world : W; trace : list event }.
Arguments State {W} world trace.
Arguments world {W} s.
Arguments trace {W} s.

Section Controller.

Context {W : Type} `{Host W}.
Variable cfg : config.

Definition call {A} (e : event) (f : W -> W * outcome A) : M (state W) A :=
  fun s => let '(w, r) := f (world s) in (State w (trace s ++ [e]), r).

(** [subprocess.run(argv, timeout=t)] *)
Definition subprocess_run (argv : list string) (t : nat) : M (state W) completed :=
  call (ERun argv t) (host_run argv t).

(** [os.path.exists(path)]; it never raises. *)
Definition os_path_exists (path : string) : M (state W) bool :=
  call (EExists path) (fun w => (w, Returned (host_exists path w))).

(** [psutil.process_iter(...)] is a generator: it yields some items and
    then either ends or raises. *)
Definition process_iter : M (state W) (list proc_info * option exn) :=
  call EProcessIter
    (fun w => let '(w', items) := host_process_iter w in (w', Returned items)).

(** What happens when a [for] loop has consumed every item without
    returning: the generator's own exception, if any, surfaces. *)
Definition exhausted {A} (fin : option exn) (a : A) : M (state W) A :=
  match fin with
  | Some e => raise e
  | None => ret a
  end.

(** [psutil.Process(pid)] *)
Definition psutil_Process (p : Z) : M (state W) unit :=
  call (EProcess p) (host_process p).

Definition proc_terminate (p : Z) : M (state W) unit :=
  call (ETerminate p) (host_terminate p).

Definition proc_wait (p : Z) (t : nat) : M (state W) unit :=
  call (EWait p t) (host_wait p t).

Definition proc_kill (p : Z) : M (state W) unit :=
  call (EKill p) (host_kill p).

Definition time_sleep (secs : nat) : M (state W) unit :=
  call (ESleep secs) (fun w => (host_sleep secs w, Returned tt)).

(** [open(path, 'r')] followed by [f.readlines()] *)
Definition readlines (path : string) : M (state W) (list string) :=
  call (EReadLines path) (host_readlines path).

(** The test both process scans apply to an item:
    [proc.info['name'] and 'java' in proc.info['name'].lower()] and then
    [cmdline and any('paper.jar' in str(arg) for arg in cmdline)]. *)
Definition is_paper_java (p : proc_info) : bool :=
  match name p with
  | Some n =>
      negb (String.eqb n "") && contains "java" (lower n)
      && match cmdline p with
         | Some (a :: l) => existsb (contains "paper.jar") (a :: l)
         | _ => false
         end
  | None => false
  end.

(** The [for proc in ...: if ...: return True] loop of [is_server_running]. *)
Fixpoint scan_running (procs : list proc_info) : bool :=
  match procs with
  | [] => false
  | p :: rest => if is_paper_java p then true else scan_running rest
  end.

(** The same loop in [get_server_pid], returning the pid. *)
Fixpoint scan_pid (procs : list proc_info) : option Z :=
  match procs with
  | [] => None
  | p :: rest => if is_paper_java p then Some (pid p) else scan_pid rest
  end.

Definition is_active_argv : list string :=
  ["systemctl"; "is-active"; "--quiet"; MC_SERVER_SERVICE].

Definition screen_ls_argv : list string :=
  ["screen"; "-ls"; MC_SERVER_SCREEN cfg].

Definition is_server_running : M (state W) bool :=
  try_except
    (result <- subprocess_run is_active_argv 2 ;;
     if (returncode result =? 0)%Z then ret true
     else
       result <- subprocess_run screen_ls_argv 2 ;;
       if contains (MC_SERVER_SCREEN cfg) (stdout result) then ret true
       else
         items <- process_iter ;;
         if scan_running (fst items) then ret true
         else exhausted (snd items) false)
    (fun _ => ret false).

Definition get_server_pid : M (state W) (option Z) :=
  try_except
    (items <- process_iter ;;
     match scan_pid (fst items) with
     | Some p => ret (Some p)
     | None => exhausted (snd items) None
     end)
    (fun _ => ret None).


Definition stopped : response := jsonify [("status", JStr "stopped")].
Definition starting : response := jsonify [("status", JStr "starting")].
Definition error_response (msg : string) (c : Z) : response :=
  jsonify_code [("error", JStr msg)] c.

Definition systemctl_stop_argv : list string :=
  ["sudo"; "systemctl"; "stop"; MC_SERVER_SERVICE].

Definition mcrcon_stop_argv (mcrcon_cmd : string) : list string :=
  [mcrcon_cmd; "-H"; MC_RCON_HOST; "-P"; str_of_N MC_RCON_PORT;
   "-p"; MC_RCON_PASSWORD cfg; "stop"].

Definition screen_stop_argv : list string :=
  ["sudo"; "-u"; MC_SERVER_USER cfg; "screen"; "-S"; MC_SERVER_SCREEN cfg;
   "-X"; "stuff"; "stop" ++ newline].

(** The three fallback blocks of [stop].  The first two answer
    [Some response] when the block executes [return], [None] when control
    falls out of the block (also through its [except: pass]). *)
Definition rcon_step : M (state W) (option response) :=
  try_except
    (usr_bin <- os_path_exists "/usr/bin/mcrcon" ;;
     let mcrcon_cmd :=
       if usr_bin then "/usr/bin/mcrcon" else "/usr/local/bin/mcrcon" in
     present <- os_path_exists mcrcon_cmd ;;
     if present then
       (subprocess_run (mcrcon_stop_argv mcrcon_cmd) 10 ;;;
        time_sleep 3 ;;;
        running <- is_server_running ;;
        if negb running then ret (Some stopped) else ret None)
     else ret None)
    (fun _ => ret None).

Definition screen_step : M (state W) (option response) :=
  try_except
    (subprocess_run screen_stop_argv 5 ;;;
     time_sleep 3 ;;;
     running <- is_server_running ;;
     if negb running then ret (Some stopped) else ret None)
    (fun _ => ret None).

(** "Last resort: kill process".  When [psutil.Process(pid)] raises, the
    name [proc] is unbound, so the [proc.kill()] of the handler raises in
    turn and is swallowed without reaching the process. *)
Definition kill_step : M (state W) unit :=
  found <- get_server_pid ;;
  match found with
  | Some p =>
      if (p =? 0)%Z then ret tt
      else
        bound <- attempt (psutil_Process p) ;;
        match bound with
        | Raised _ => ret tt
        | Returned _ =>
            try_except
              (proc_terminate p ;;; proc_wait p 10)
              (fun _ => try_except (proc_kill p) (fun _ => ret tt))
        end
  | None => ret tt
  end.

Definition stop : M (state W) response :=
  try_except
    (running <- is_server_running ;;
     if negb running then ret (error_response "Server is not running" 400)
     else
       result <- subprocess_run systemctl_stop_argv 10 ;;
       if (returncode result =? 0)%Z then ret stopped
       else
         r <- rcon_step ;;
         match r with
         | Some resp => ret resp
         | None =>
             r <- screen_step ;;
             match r with
             | Some resp => ret resp
             | None => kill_step ;;; ret stopped
             end
         end)
    (fun e => ret (error_response e 500)).

Definition systemctl_start_argv : list string :=
  ["sudo"; "systemctl"; "start"; MC_SERVER_SERVICE].

Definition screen_cmd : string :=
  "screen -dmS " ++ MC_SERVER_SCREEN cfg ++ " bash -c " ++ dquote
  ++ "cd " ++ MC_SERVER_DIR cfg ++ " && java -Xms1G -Xmx4G -jar "
  ++ MC_SERVER_JAR cfg ++ " nogui" ++ dquote.

Definition screen_start_argv : list string :=
  ["sudo"; "-u"; MC_SERVER_USER cfg; "bash"; "-c"; screen_cmd].

Definition start : M (state W) response :=
  try_except
    (running <- is_server_running ;;
     if running then ret (error_response "Server is already running" 400)
     else
       result <- subprocess_run systemctl_start_argv 5 ;;
       if (returncode result =? 0)%Z then ret starting
       else
         let jar_path := os_path_join (MC_SERVER_DIR cfg) (MC_SERVER_JAR cfg) in
         present <- os_path_exists jar_path ;;
         if negb present
         then ret (error_response ("Server jar not found: " ++ jar_path) 404)
         else
           result <- subprocess_run screen_start_argv 10 ;;
           if (returncode result =? 0)%Z then ret starting
           else ret (error_response
                       ("Failed to start server: " ++ stderr result) 500))
    (fun e => ret (error_response e 500)).

(** [restart] calls the two view functions and drops what they return. *)
Definition restart : M (state W) response :=
  try_except
    (running <- is_server_running ;;
     (if running then (stop ;;; time_sleep 2) else ret tt) ;;;
     start ;;;
     ret (jsonify [("status", JStr "restarting")]))
    (fun e => ret (error_response e 500)).

Definition log_file : string :=
  os_path_join (os_path_join (MC_SERVER_DIR cfg) "logs") "latest.log".

Definition get_log (arg : lines_arg) : M (state W) response :=
  try_except
    (present <- os_path_exists log_file ;;
     if negb present then ret (error_response "Log file not found" 404)
     else
       lines <- match arg with
                | LinesAbsent => ret 50%Z
                | LinesInt z => ret z
                | LinesInvalid e => raise e
                end ;;
       let lines := Z.min lines 500 in
       log_lines <- readlines log_file ;;
       let recent_lines :=
         if (Z.of_nat (length log_lines) >? lines)%Z
         then slice_from (- lines) log_lines
         else log_lines in
       ret (jsonify [("status", JStr "ok");
                     ("lines", JArr (JStr <$> recent_lines));
                     ("total_lines", JNum (Z.of_nat (length log_lines)))]))
    (fun e => ret (error_response e 500)).

(** What [is_server_running()] answers when called in state [s], and the
    state it leaves. *)
Definition running (s : state W) : bool :=
  match snd (is_server_running s) with
  | Returned b => b
  | Raised _ => false
  end.

Definition after_detection (s : state W) : state W :=
  fst (is_server_running s).

(** The events of the three detection probes, in the order of
    [is_server_running]. *)
Definition detection_events : list event :=
  [ERun is_active_argv 2; ERun screen_ls_argv 2; EProcessIter].

(** An action is a command other than the two detection queries, or a
    signal sent to a process. *)
Definition is_action (e : event) : bool :=
  match e with
  | ERun _ _ => bool_decide (e ∉ detection_events)
  | ETerminate _ | EKill _ => true
  | _ => false
  end.

Definition actions (t : list event) : list event := List.filter is_action t.

(** The stop escalation, as the actions it may issue, most gentle first:
    service-manager stop, RCON stop command (through the mcrcon binary at
    [mcrcon]), stop typed into the screen console, SIGTERM and SIGKILL to
    process [p]. *)
Definition escalation_chain (mcrcon : string) (p : Z) : list event :=
  [ERun systemctl_stop_argv 10; ERun (mcrcon_stop_argv mcrcon) 10;
   ERun screen_stop_argv 5; ETerminate p; EKill p].

#[local] Open Scope list_scope.

(** *** Reading aids for the statements below

    A computation is framed when it only ever appends to the trace and
    what it does depends on the outside world alone. *)

Definition framed {A} (m : M (state W) A) : Prop :=
  forall s,
    m s = (State (world (fst (m (State (world s) []))))
                 (trace s ++ trace (fst (m (State (world s) [])))),
           snd (m (State (world s) []))).

(** The state in which a step's detection runs: the command has returned
    in outside state [w] and the backend has slept three seconds. *)
Definition waited (s : state W) (w : W) (command : event) : state W :=
  State (host_sleep 3 w) (trace s ++ [command; ESleep 3]).

(** A verified step: after the wait, a fresh detection decides whether the
    step ends the sequence ([Some stopped]) or hands over to the next. *)
Definition verified (s : state W) (w : W) (command : event)
  : state W * outcome (option response) :=
  (after_detection (waited s w command),
   Returned (if running (waited s w command) then None else Some stopped)).

(** The path [rcon_step] settles on for the mcrcon binary. *)
Definition mcrcon_path (w : W) : string :=
  if host_exists "/usr/bin/mcrcon" w then "/usr/bin/mcrcon"
  else "/usr/local/bin/mcrcon".

(** What [stop] does after a service-manager stop that exited non-zero. *)
Definition fallbacks (s : state W) : state W * outcome response :=
  match rcon_step s with
  | (s2, Returned (Some resp)) => (s2, Returned resp)
  | (s2, _) =>
      match screen_step s2 with
      | (s3, Returned (Some resp)) => (s3, Returned resp)
      | (s3, _) => (fst (kill_step s3), Returned stopped)
      end
  end.

(** *** Reading a detection run

    How one probe answered: with a positive signal, with a negative one,
    or not at all because the call raised. *)
Inductive verdict : Type := Positive | Negative | Failed.

Definition service_verdict (r : outcome completed) : verdict :=
  match r with
  | Returned c => if (returncode c =? 0)%Z then Positive else Negative
  | Raised _ => Failed
  end.

Definition session_verdict (r : outcome completed) : verdict :=
  match r with
  | Returned c =>
      if contains (MC_SERVER_SCREEN cfg) (stdout c) then Positive else Negative
  | Raised _ => Failed
  end.

Definition scan_verdict (items : list proc_info * option exn) : verdict :=
  if scan_running (fst items) then Positive
  else match snd items with
       | Some _ => Failed
       | None => Negative
       end.

(** The answer an ordered list of verdicts stands for: the first one that
    is not negative decides, and it decides for "running" only when it is
    positive. *)
Fixpoint first_positive (vs : list verdict) : bool :=
  match vs with
  | [] => false
  | Positive :: _ => true
  | Negative :: rest => first_positive rest
  | Failed :: _ => false
  end.

(** How many probes were consulted to reach that answer. *)
Fixpoint consulted (vs : list verdict) : nat :=
  match vs with
  | [] => 0
  | Negative :: rest => S (consulted rest)
  | _ :: _ => 1
  end.

End Controller.

End Minecraft.

(** ** The printer controller ([backend/api/printer.py]) *)

Module Printer.

(** Module-level configuration.  [MQTT_AVAILABLE] records whether
    [import paho.mqtt.client] succeeded, [REQUESTS_AVAILABLE] whether the
    [import requests] inside [try_http_status] does. *)
Record config : Type := Config {
  PRINTER_IP : string;
  PRINTER_ACCESS_CODE : string;
  PRINTER_SERIAL : string;
  MQTT_AVAILABLE : bool;
  REQUESTS_AVAILABLE : bool
}.

Definition MQTT_PORT : Z := 8883.
Definition HTTP_PORT : Z := 80.

(** The dict [_printer_cache].  Its key set is fixed by the literal that
    creates it, and every write in the module is to one of these keys.
    [last_update] holds the instant written by [datetime.now().isoformat()],
    in microseconds, which is what [datetime.fromisoformat] gives back. *)
Record printer_cache : Type := Cache {
  status : json;
  jobName : json;
  progress : json;
  eta : json;
  nozzleTemp : json;
  bedTemp : json;
  filament : json;
  alert : json;
  last_update : option Z;
  connected : bool;
  mode : string
}.

Definition initial_cache : printer_cache :=
  Cache (JStr "IDLE") JNull (JNum 0) JNull (JNum 0) (JNum 0) JNull JNull
        None false "unknown".

Definition with_status (v : json) (c : printer_cache) : printer_cache :=
  Cache v (jobName c) (progress c) (eta c) (nozzleTemp c) (bedTemp c)
        (filament c) (alert c) (last_update c) (connected c) (mode c).
Definition with_jobName (v : json) (c : printer_cache) : printer_cache :=
  Cache (status c) v (progress c) (eta c) (nozzleTemp c) (bedTemp c)
        (filament c) (alert c) (last_update c) (connected c) (mode c).
Definition with_progress (v : json) (c : printer_cache) : printer_cache :=
  Cache (status c) (jobName c) v (eta c) (nozzleTemp c) (bedTemp c)
        (filament c) (alert c) (last_update c) (connected c) (mode c).
Definition with_eta (v : json) (c : printer_cache) : printer_cache :=
  Cache (status c) (jobName c) (progress c) v (nozzleTemp c) (bedTemp c)
        (filament c) (alert c) (last_update c) (connected c) (mode c).
Definition with_nozzleTemp (v : json) (c : printer_cache) : printer_cache :=
  Cache (status c) (jobName c) (progress c) (eta c) v (bedTemp c)
        (filament c) (alert c) (last_update c) (connected c) (mode c).
Definition with_bedTemp (v : json) (c : printer_cache) : printer_cache :=
  Cache (status c) (jobName c) (progress c) (eta c) (nozzleTemp c) v
        (filament c) (alert c) (last_update c) (connected c) (mode c).
Definition with_filament (v : json) (c : printer_cache) : printer_cache :=
  Cache (status c) (jobName c) (progress c) (eta c) (nozzleTemp c) (bedTemp c)
        v (alert c) (last_update c) (connected c) (mode c).
Definition with_last_update (t : option Z) (c : printer_cache) : printer_cache :=
  Cache (status c) (jobName c) (progress c) (eta c) (nozzleTemp c) (bedTemp c)
        (filament c) (alert c) t (connected c) (mode c).
Definition with_connected (b : bool) (c : printer_cache) : printer_cache :=
  Cache (status c) (jobName c) (progress c) (eta c) (nozzleTemp c) (bedTemp c)
        (filament c) (alert c) (last_update c) b (mode c).
Definition with_mode (m : string) (c : printer_cache) : printer_cache :=
  Cache (status c) (jobName c) (progress c) (eta c) (nozzleTemp c) (bedTemp c)
        (filament c) (alert c) (last_update c) (connected c) m.

(** *** Dict operations on parsed JSON

    The handlers apply [in], [[]] and [.get] to whatever the peer sent.
    On a value that is not a dict these raise; the message text depends on
    the interpreter version and no statement below relies on it. *)

Definition is_str (k : string) (j : json) : bool :=
  match j with
  | JStr s => String.eqb s k
  | _ => false
  end.

(** [k in d] *)
Definition py_in (k : string) (d : json) : outcome bool :=
  match d with
  | JObj m => Returned (bool_decide (is_Some (m !! k)))
  | JStr s => Returned (contains k s)
  | JArr l => Returned (existsb (is_str k) l)
  | _ => Raised "TypeError: argument is not iterable"
  end.

(** [d[k]] *)
Definition py_getitem (k : string) (d : json) : outcome json :=
  match d with
  | JObj m =>
      match m !! k with
      | Some v => Returned v
      | None => Raised ("KeyError: " ++ k)
      end
  | _ => Raised "TypeError: indices must be integers"
  end.

(** [d.get(k, dflt)] *)
Definition py_get (k : string) (dflt : json) (d : json) : outcome json :=
  match d with
  | JObj m => Returned (default dflt (m !! k))
  | _ => Raised "AttributeError: object has no attribute 'get'"
  end.

(** The integer a value stands for in [>], [//] and [%]; [bool] is a
    subclass of [int]. *)
Definition py_int (j : json) : outcome Z :=
  match j with
  | JNum z => Returned z
  | JBool b => Returned (if b then 1 else 0)%Z
  | _ => Raised "TypeError: '>' not supported"
  end.

(** [f"{n:02d}"] for [n >= 0] *)
Definition fmt_02d (n : Z) : string :=
  let s := str_of_N (Z.to_N n) in
  if (String.length s <? 2)%nat then "0" ++ s else s.

(** What the MQTT network loop delivers to the three callbacks. *)
Inductive mqtt_event : Type :=
| OnConnect (rc : Z)
| OnMessage (payload : outcome json)
| OnDisconnect (rc : Z).

(** An HTTP response: its status code and what [response.json()] does. *)
Record http_response : Type := HttpResponse {
  status_code : Z;
  json_body : outcome json
}.

Inductive event : Type :=
| ENow
| ETime
| ENewClient (client_id : string)
| EConnect (ip : string) (port : Z)
| ESubscribe (topic : string)
| EPublish (topic : string) (payload : json)
| EReachable (ip : string) (port : Z)
| EHttpGet (url : string).

Definition is_publish (e : event) : bool :=
  match e with
  | EPublish _ _ => true
  | _ => false
  end.

(** The network and the clock.  [host_mqtt_connect] stands for everything
    between [tls_set()] and the end of the two-second sleep in
    [init_mqtt_client]: it raises when the connection attempt does, and
    otherwise returns what the network loop delivered during the sleep. *)
Class Host (W : Type) : Type := {
  host_now : W -> Z;
  host_time : W -> N;
  host_new_client : string -> W -> W * outcome unit;
  host_mqtt_connect : string -> Z -> W -> W * outcome (list mqtt_event);
  host_subscribe : string -> W -> W;
  host_publish : string -> json -> W -> W * outcome unit;
  host_reachable : string -> Z -> W -> W * bool;
  host_http_get : string -> W -> W * outcome http_response
}.

(** The module globals, the outside world and the trace. *)
Record state (W : Type) : Type := State {
  world : W;
  _printer_cache : printer_cache;
  _mqtt_client : bool;
  _mqtt_connected : bool;
  trace : list event
}.
Arguments State {W} world _printer_cache _mqtt_client _mqtt_connected trace.
Arguments world {W} s.
Arguments _printer_cache {W} s.
Arguments _mqtt_client {W} s.
Arguments _mqtt_connected {W} s.
Arguments trace {W} s.

Section Controller.

Context {W : Type} `{Host W}.
Variable cfg : config.

Definition lift {A} (r : outcome A) : M (state W) A := fun s => (s, r).

Definition call {A} (e : event) (f : W -> W * outcome A) : M (state W) A :=
  fun s =>
    let '(w, r) := f (world s) in
    (State w (_printer_cache s) (_mqtt_client s) (_mqtt_connected s)
           (trace s ++ [e]), r).

(** [_printer_cache[...] = ...] *)
Definition modify_cache (f : printer_cache -> printer_cache) : M (state W) unit :=
  fun s =>
    (State (world s) (f (_printer_cache s)) (_mqtt_client s)
           (_mqtt_connected s) (trace s), Returned tt).

Definition set_mqtt_connected (b : bool) : M (state W) unit :=
  fun s =>
    (State (world s) (_printer_cache s) (_mqtt_client s) b (trace s),
     Returned tt).

Definition set_mqtt_client (b : bool) : M (state W) unit :=
  fun s =>
    (State (world s) (_printer_cache s) b (_mqtt_connected s) (trace s),
     Returned tt).

Definition get {A} (f : state W -> A) : M (state W) A :=
  fun s => (s, Returned (f s)).

(** [datetime.now()] *)
Definition datetime_now : M (state W) Z :=
  call ENow (fun w => (w, Returned (host_now w))).

(** [int(time.time())] *)
Definition time_time : M (state W) N :=
  call ETime (fun w => (w, Returned (host_time w))).

(** Writers of the cache.  Each assignment is a separate step, so an
    exception in the middle leaves the earlier assignments in place. *)

Definition update_printer_status_from_mqtt (data : json) : M (state W) unit :=
  has_print <- lift (py_in "print" data) ;;
  (if has_print then
     print_data <- lift (py_getitem "print" data) ;;
     v <- lift (py_get "mc_print_stage" (JStr "IDLE") print_data) ;;
     modify_cache (with_status v) ;;;
     v <- lift (py_get "mc_percent" (JNum 0) print_data) ;;
     modify_cache (with_progress v) ;;;
     v <- lift (py_get "subtask_name" JNull print_data) ;;
     modify_cache (with_jobName v) ;;;
     remaining <- lift (py_get "mc_remaining_time" (JNum 0) print_data) ;;
     eta_minutes <- lift (py_int remaining) ;;
     if (eta_minutes >? 0)%Z then
       let hours := (eta_minutes / 60)%Z in
       let minutes := (eta_minutes mod 60)%Z in
       modify_cache (with_eta (JStr (fmt_02d hours ++ ":" ++ fmt_02d minutes)))
     else modify_cache (with_eta JNull)
   else ret tt) ;;;
  has_temperature <- lift (py_in "temperature" data) ;;
  (if has_temperature then
     temp_data <- lift (py_getitem "temperature" data) ;;
     v <- lift (py_get "nozzle_temper" (JNum 0) temp_data) ;;
     modify_cache (with_nozzleTemp v) ;;;
     v <- lift (py_get "bed_temper" (JNum 0) temp_data) ;;
     modify_cache (with_bedTemp v)
   else ret tt) ;;;
  has_ams <- lift (py_in "ams" data) ;;
  (if has_ams then
     ams_data <- lift (py_getitem "ams" data) ;;
     v <- lift (py_get "tray_now" (JStr "--") ams_data) ;;
     modify_cache (with_filament v)
   else ret tt) ;;;
  now <- datetime_now ;;
  modify_cache (with_last_update (Some now)) ;;;
  modify_cache (with_connected true).

Definition update_printer_status_from_http (data : json) : M (state W) unit :=
  v <- lift (py_get "status" (JStr "IDLE") data) ;;
  modify_cache (with_status v) ;;;
  v <- lift (py_get "progress" (JNum 0) data) ;;
  modify_cache (with_progress v) ;;;
  v <- lift (py_get "job_name" JNull data) ;;
  modify_cache (with_jobName v) ;;;
  v <- lift (py_get "nozzle_temp" (JNum 0) data) ;;
  modify_cache (with_nozzleTemp v) ;;;
  v <- lift (py_get "bed_temp" (JNum 0) data) ;;
  modify_cache (with_bedTemp v) ;;;
  now <- datetime_now ;;
  modify_cache (with_last_update (Some now)) ;;;
  modify_cache (with_connected true).

(** The MQTT callbacks. *)

Definition subscribe (topic : string) : M (state W) unit :=
  call (ESubscribe topic) (fun w => (host_subscribe topic w, Returned tt)).

Definition on_mqtt_connect (rc : Z) : M (state W) unit :=
  if (rc =? 0)%Z then
    set_mqtt_connected true ;;;
    modify_cache (with_mode "lan") ;;;
    if negb (String.eqb (PRINTER_SERIAL cfg) "") then
      subscribe ("device/" ++ PRINTER_SERIAL cfg ++ "/report") ;;;
      subscribe ("device/" ++ PRINTER_SERIAL cfg ++ "/status")
    else ret tt
  else set_mqtt_connected false.

(** [payload] is what [json.loads(msg.payload.decode('utf-8'))] does. *)
Definition on_mqtt_message (payload : outcome json) : M (state W) unit :=
  try_except
    (data <- lift payload ;;
     update_printer_status_from_mqtt data)
    (fun _ => ret tt).

Definition on_mqtt_disconnect (rc : Z) : M (state W) unit :=
  set_mqtt_connected false.

Definition dispatch (ev : mqtt_event) : M (state W) unit :=
  match ev with
  | OnConnect rc => on_mqtt_connect rc
  | OnMessage payload => on_mqtt_message payload
  | OnDisconnect rc => on_mqtt_disconnect rc
  end.

(** The network loop running the callbacks, one delivery after another. *)
Fixpoint deliver (evs : list mqtt_event) : M (state W) unit :=
  match evs with
  | [] => ret tt
  | ev :: rest => dispatch ev ;;; deliver rest
  end.

Definition check_printer_reachable (ip : string) (port : Z) : M (state W) bool :=
  call (EReachable ip port)
    (fun w => let '(w', b) := host_reachable ip port w in (w', Returned b)).

Definition requests_get (url : string) : M (state W) http_response :=
  call (EHttpGet url) (host_http_get url).

(** The [for url in endpoints] loop of [try_http_status]: [true] is the
    [return True] of the body, anything else goes on to the next url. *)
Fixpoint poll_endpoints (endpoints : list string) : M (state W) bool :=
  match endpoints with
  | [] => ret false
  | url :: rest =>
      returned <-
        try_except
          (response <- requests_get url ;;
           if (status_code response =? 200)%Z then
             data <- lift (json_body response) ;;
             update_printer_status_from_http data ;;;
             modify_cache (with_mode "cloud") ;;;
             ret true
           else ret false)
          (fun _ => ret false) ;;
      if returned then ret true else poll_endpoints rest
  end.

Definition try_http_status (ip : string) : M (state W) bool :=
  if REQUESTS_AVAILABLE cfg then
    try_except
      (poll_endpoints ["http://" ++ ip ++ "/api/v1/status";
                       "http://" ++ ip ++ "/status";
                       "http://" ++ ip ++ "/api/status"])
      (fun _ => ret false)
  else ret false.

Definition init_mqtt_client : M (state W) bool :=
  if negb (MQTT_AVAILABLE cfg) then ret false
  else if String.eqb (PRINTER_IP cfg) "" then ret false
  else if String.eqb (PRINTER_SERIAL cfg) ""
          || String.eqb (PRINTER_ACCESS_CODE cfg) "" then ret false
  else
    client <- get _mqtt_client ;;
    connected <- get _mqtt_connected ;;
    if client && connected then ret true
    else
      try_except
        (now <- time_time ;;
         let client_id := "wtl-s-lcars-" ++ str_of_N now in
         call (ENewClient client_id) (host_new_client client_id) ;;;
         set_mqtt_client true ;;;
         delivered <- call (EConnect (PRINTER_IP cfg) MQTT_PORT)
                        (host_mqtt_connect (PRINTER_IP cfg) MQTT_PORT) ;;
         deliver delivered ;;;
         get _mqtt_connected)
        (fun _ => ret false).

(** [timedelta(seconds=60)], in microseconds *)
Definition staleness : Z := 60000000.

Definition get_printer_status : M (state W) printer_cache :=
  c <- get _printer_cache ;;
  match last_update c with
  | Some last =>
      now <- datetime_now ;;
      if (now - last >? staleness)%Z
      then modify_cache (with_connected false)
      else ret tt
  | None => ret tt
  end ;;;
  if String.eqb (PRINTER_IP cfg) "" then get _printer_cache
  else
    connected <- get _mqtt_connected ;;
    (if negb connected then init_mqtt_client ;;; ret tt else ret tt) ;;;
    connected <- get _mqtt_connected ;;
    if connected then get _printer_cache
    else
      reachable <- check_printer_reachable (PRINTER_IP cfg) 80 ;;
      (if reachable then try_http_status (PRINTER_IP cfg) ;;; ret tt
       else ret tt) ;;;
      get _printer_cache.

Definition pushing (now : N) (command : string) (params : option (gmap string json))
  : gmap string json :=
  let base : gmap string json :=
    <["sequence_id" := JStr (str_of_N now)]> {["command" := JStr command]} in
  match params with
  | Some p => p ∪ base
  | None => base
  end.

Definition send_mqtt_command (command : string) (params : option (gmap string json))
  : M (state W) bool :=
  connected <- get _mqtt_connected ;;
  client <- get _mqtt_client ;;
  if negb connected || negb client then ret false
  else
    try_except
      (let topic := "device/" ++ PRINTER_SERIAL cfg ++ "/request" in
       now <- time_time ;;
       let payload := JObj {["pushing" := JObj (pushing now command params)]} in
       call (EPublish topic payload) (host_publish topic payload) ;;;
       ret true)
      (fun _ => ret false).

Definition command_map : gmap string string :=
  <["pause" := "pause"]> (<["resume" := "resume"]> {["stop" := "stop"]}).

Definition control_printer (action : string) : M (state W) bool :=
  connected <- get _mqtt_connected ;;
  if negb connected then ret false
  else
    match command_map !! action with
    | Some command =>
        if String.eqb command "" then ret false
        else send_mqtt_command command None
    | None => ret false
    end.

Definition error_response (msg : string) (c : Z) : response :=
  jsonify_code [("error", JStr msg)] c.

(** The dict literal [get_status] hands to [jsonify]. *)
Definition status_body (c : printer_cache) : list (string * json) :=
  [("status", status c);
   ("jobName", jobName c);
   ("progress", progress c);
   ("eta", eta c);
   ("nozzleTemp", nozzleTemp c);
   ("bedTemp", bedTemp c);
   ("filament", filament c);
   ("alert", alert c);
   ("connected", JBool (connected c));
   ("mode", JStr (mode c))].

Definition get_status : M (state W) response :=
  try_except
    (status <- get_printer_status ;;
     ret (jsonify (status_body status)))
    (fun e => ret (error_response e 500)).



Definition lan_only_response : response :=
  jsonify_code
    [("error", JStr "Printer control requires LAN Only Mode. Your printer appears to be in cloud mode.");
     ("note", JStr "To control the printer, enable LAN Only Mode in Settings > Network. You can still monitor status in cloud mode.")]
    400.

(** The three control views differ only in the action and in two strings. *)
Definition control_view (action done failure : string) : M (state W) response :=
  try_except
    (connected <- get _mqtt_connected ;;
     if negb connected then ret lan_only_response
     else
       success <- control_printer action ;;
       if success then ret (jsonify [("status", JStr done)])
       else ret (error_response failure 500))
    (fun e => ret (error_response e 500)).

Definition pause : M (state W) response :=
  control_view "pause" "paused" "Failed to pause printer".

Definition resume : M (state W) response :=
  control_view "resume" "resumed" "Failed to resume printer".

Definition stop : M (state W) response :=
  control_view "stop" "stopped" "Failed to stop printer".

(** *** Reading aids for the statements below *)









Definition is_message (ev : mqtt_event) : bool :=
  match ev with
  | OnMessage _ => true
  | _ => false
  end.

(** No probe delivers data.  For the push channel: whenever the MQTT
    connection is attempted, it either fails or no message arrives during
    the two seconds [init_mqtt_client] waits.  For the poll: the printer is
    not reachable, or no HTTP request is answered with status 200. *)
Definition no_push_data : Prop :=
  forall ip port w w' delivered,
    host_mqtt_connect ip port w = (w', Returned delivered) ->
    forallb (fun ev => negb (is_message ev)) delivered = true.

Definition no_poll_data : Prop :=
  (forall ip port w, snd (host_reachable ip port w) = false)
  \/ (forall url w w' response,
        host_http_get url w = (w', Returned response) ->
        status_code response <> 200%Z).

(** [m] never raises. *)
Definition total {A} (m : M (state W) A) : Prop :=
  forall s, exists a, snd (m s) = Returned a.

(** [m] leaves the view [f] of the cache as it found it. *)
Definition preserves {A B} (f : printer_cache -> B) (m : M (state W) A) : Prop :=
  forall s, f (_printer_cache (fst (m s))) = f (_printer_cache s).

(** The status fields together with the [connected] flag. *)
Definition data_of (c : printer_cache)
  : json * json * json * json * json * json * json * json * option Z * bool :=
  (status c, jobName c, progress c, eta c, nozzleTemp c, bedTemp c,
   filament c, alert c, last_update c, connected c).

(** Whether the cache is stale when read in outside state [w]. *)
Definition stale (c : printer_cache) (w : W) : bool :=
  match last_update c with
  | Some last => (host_now w - last >? staleness)%Z
  | None => false
  end.

End Controller.

End Printer.

(** ** Example deployments

    Concrete machines on which the controllers can be run.  The outside
    state of a simulated machine is a clock: the number of seconds the
    backend has slept so far. *)

Module Deployments.

Import Minecraft.

Record machine : Type := Machine {
  m_run : list string -> nat -> nat -> outcome completed;
  m_exists : string -> bool;
  m_procs : nat -> list proc_info * option exn;
  m_process : Z -> outcome unit;
  m_terminate : Z -> outcome unit;
  m_wait : Z -> outcome unit;
  m_kill : Z -> outcome unit;
  m_lines : string -> outcome (list string)
}.

Definition machine_host (m : machine) : Host nat := {|
  host_run argv t clock := (clock, m_run m argv t clock);
  host_exists path clock := m_exists m path;
  host_process_iter clock := (clock, m_procs m clock);
  host_process p clock := (clock, m_process m p);
  host_terminate p clock := (clock, m_terminate m p);
  host_wait p t clock := (clock, m_wait m p);
  host_kill p clock := (clock, m_kill m p);
  host_sleep secs clock := (clock + secs)%nat;
  host_readlines path clock := (clock, m_lines m path)
|}.

Definition boot : state nat := State 0%nat [].

Definition has_word (w : string) (argv : list string) : bool :=
  existsb (String.eqb w) argv.

Definition exited (rc : Z) : outcome completed := Returned (Completed rc "" "").

Definition session_listing : outcome completed :=
  Returned (Completed 0 "There is a screen on: 1234.mcserver (Detached)" "").

Definition java_proc : proc_info :=
  ProcInfo 4242 (Some "java") (Some ["java"; "-Xms1G"; "-Xmx4G"; "-jar"; "paper.jar"; "nogui"]).

(** Nothing is running and every command fails. *)
Definition idle : machine := {|
  m_run argv t clock := exited 3;
  m_exists path := false;
  m_procs clock := ([], None);
  m_process p := Raised "psutil.NoSuchProcess";
  m_terminate p := Raised "psutil.NoSuchProcess";
  m_wait p := Raised "psutil.NoSuchProcess";
  m_kill p := Raised "psutil.NoSuchProcess";
  m_lines path := Raised "[Errno 2] No such file or directory"
|}.

(** The server runs as an active systemd unit. *)
Definition supervised : machine := {|
  m_run argv t clock := if has_word "is-active" argv then exited 0 else exited 1;
  m_exists := m_exists idle;
  m_procs := m_procs idle;
  m_process := m_process idle;
  m_terminate := m_terminate idle;
  m_wait := m_wait idle;
  m_kill := m_kill idle;
  m_lines := m_lines idle
|}.

(** A machine without systemd: running [systemctl] raises.  The server
    runs in a screen session. *)
Definition no_systemd : machine := {|
  m_run argv t clock :=
    if has_word "systemctl" argv
    then Raised "[Errno 2] No such file or directory: 'systemctl'"
    else if has_word "-ls" argv then session_listing
    else exited 1;
  m_exists := m_exists idle;
  m_procs := m_procs idle;
  m_process := m_process idle;
  m_terminate := m_terminate idle;
  m_wait := m_wait idle;
  m_kill := m_kill idle;
  m_lines := m_lines idle
|}.

(** The server runs in a screen session that nothing ends; the unit of
    the same name is inactive, and [systemctl stop] on it exits with 0. *)
Definition stale_unit : machine := {|
  m_run argv t clock :=
    if has_word "is-active" argv then exited 3
    else if has_word "-ls" argv then session_listing
    else if has_word "systemctl" argv then exited 0
    else exited 1;
  m_exists := m_exists idle;
  m_procs := m_procs idle;
  m_process := m_process idle;
  m_terminate := m_terminate idle;
  m_wait := m_wait idle;
  m_kill := m_kill idle;
  m_lines := m_lines idle
|}.

(** The server runs in a screen session and shuts down once it has read
    [stop] on its console, which takes it more than three seconds: it is
    gone from the sixth second on.  There is no unit ([systemctl stop]
    exits with 5); mcrcon is installed but RCON is not enabled. *)
Definition console_stop : machine := {|
  m_run argv t clock :=
    if has_word "is-active" argv then exited 3
    else if has_word "-ls" argv
         then (if (clock <? 6)%nat then session_listing else exited 1)
    else if has_word "systemctl" argv then exited 5
    else if has_word "stuff" argv then exited 0
    else exited 1;
  m_exists path := String.eqb path "/usr/bin/mcrcon";
  m_procs := m_procs idle;
  m_process := m_process idle;
  m_terminate := m_terminate idle;
  m_wait := m_wait idle;
  m_kill := m_kill idle;
  m_lines := m_lines idle
|}.

(** A java process that survives everything: no unit, no session, no
    mcrcon, and neither SIGTERM nor SIGKILL ends it. *)
Definition unkillable : machine := {|
  m_run argv t clock := if has_word "systemctl" argv then exited 5 else exited 1;
  m_exists path := false;
  m_procs clock := ([java_proc], None);
  m_process p := Returned tt;
  m_terminate p := Returned tt;
  m_wait p := Raised "psutil.TimeoutExpired timeout after 10 seconds";
  m_kill p := Returned tt;
  m_lines := m_lines idle
|}.

(** An active unit whose [systemctl stop] outlasts the ten-second timeout
    of [subprocess.run]; the unit is down two seconds later. *)
Definition slow_stop : machine := {|
  m_run argv t clock :=
    if has_word "is-active" argv
    then (if (clock <? 2)%nat then exited 0 else exited 3)
    else if has_word "stop" argv
         then Raised "Command '['sudo', 'systemctl', 'stop', 'minecraft']' timed out after 10 seconds"
    else if has_word "start" argv then exited 0
    else exited 1;
  m_exists := m_exists idle;
  m_procs := m_procs idle;
  m_process := m_process idle;
  m_terminate := m_terminate idle;
  m_wait := m_wait idle;
  m_kill := m_kill idle;
  m_lines := m_lines idle
|}.

(** A machine whose [latest.log] holds the given lines. *)
Definition with_log (lines : list string) : machine := {|
  m_run := m_run idle;
  m_exists path := String.eqb path "/opt/minecraft/logs/latest.log";
  m_procs := m_procs idle;
  m_process := m_process idle;
  m_terminate := m_terminate idle;
  m_wait := m_wait idle;
  m_kill := m_kill idle;
  m_lines path := Returned lines
|}.

Definition numbered (n : nat) : list string :=
  (fun i => "line " ++ str_of_N (N.of_nat i)) <$> seq 1 n.

End Deployments.

(** Simulated networks for the printer controller.  The outside state is
    the wall clock, in microseconds. *)

Module Networks.

Import Printer.

Record network : Type := Network {
  n_new_client : outcome unit;
  n_connect : outcome (list mqtt_event);
  n_publish : outcome unit;
  n_reachable : bool;
  n_http : string -> outcome http_response
}.

Definition network_host (n : network) : Host Z := {|
  host_now clock := clock;
  host_time clock := Z.to_N (clock / 1000000);
  host_new_client client_id clock := (clock, n_new_client n);
  host_mqtt_connect ip port clock := (clock, n_connect n);
  host_subscribe topic clock := clock;
  host_publish topic payload clock := (clock, n_publish n);
  host_reachable ip port clock := (clock, n_reachable n);
  host_http_get url clock := (clock, n_http n url)
|}.

(** The printer is switched off: nothing connects, nothing answers. *)
Definition offline : network := {|
  n_new_client := Returned tt;
  n_connect := Raised "[Errno 113] No route to host";
  n_publish := Raised "not connected";
  n_reachable := false;
  n_http url := Raised "ConnectionError"
|}.



(** LAN-only mode: address, access code and serial are configured. *)
Definition lan_config : config :=
  Config "192.168.1.50" "12345678" "01S00A000000000" true true.


(** A cache last written at time 0: a print of "benchy" at 42 percent. *)
Definition printing : printer_cache :=
  Cache (JStr "RUNNING") (JStr "benchy") (JNum 42) (JStr "01:10") (JNum 215)
        (JNum 60) (JStr "PLA") JNull (Some 0%Z) true "manual".

(** The backend two minutes after that write, MQTT not connected. *)
Definition two_minutes_later : state Z := State 120000000%Z printing false false [].

(** The backend one second after that write. *)
Definition one_second_later : state Z := State 1000000%Z printing false false [].






End Networks.

(** * Properties of the game server controller *)

Section MinecraftFacts.

Import Minecraft.
#[local] Open Scope list_scope.

Context {W : Type} `{Host W}.
Variable cfg : config.

(** ** Framing *)

Lemma framed_ret {A} (a : A) : framed (ret a : M (state W) A).
Proof. intros [w t]. unfold ret. simpl. by rewrite app_nil_r. Qed.

Lemma framed_raise {A} (e : exn) : framed (@raise (state W) A e).
Proof. intros [w t]. unfold raise. simpl. by rewrite app_nil_r. Qed.

Lemma framed_call {A} (e : event) (f : W -> W * outcome A) : framed (call e f).
Proof. intros [w t]. unfold call. simpl. by destruct (f w). Qed.

Lemma framed_bind {A B} (m : M (state W) A) (k : A -> M (state W) B) :
  framed m -> (forall a, framed (k a)) -> framed (bind m k).
Proof.
  intros Hm Hk s. unfold bind.
  rewrite (Hm s). destruct (m (State (world s) [])) as [[w1 t1] [a|e]]; simpl.
  - rewrite (Hk a (State w1 (trace s ++ t1))), (Hk a (State w1 t1)). simpl.
    by rewrite app_assoc.
  - done.
Qed.

Lemma framed_try {A} (m : M (state W) A) (h : exn -> M (state W) A) :
  framed m -> (forall e, framed (h e)) -> framed (try_except m h).
Proof.
  intros Hm Hh s. unfold try_except.
  rewrite (Hm s). destruct (m (State (world s) [])) as [[w1 t1] [a|e]]; simpl.
  - done.
  - rewrite (Hh e (State w1 (trace s ++ t1))), (Hh e (State w1 t1)). simpl.
    by rewrite app_assoc.
Qed.

Lemma framed_attempt {A} (m : M (state W) A) : framed m -> framed (attempt m).
Proof.
  intros Hm s. unfold attempt.
  rewrite (Hm s). by destruct (m (State (world s) [])) as [[w1 t1] r].
Qed.

Lemma framed_if {A} (b : bool) (m1 m2 : M (state W) A) :
  framed m1 -> framed m2 -> framed (if b then m1 else m2).
Proof. by destruct b. Qed.

Ltac framed :=
  repeat first
    [ progress intros
    | apply framed_bind | apply framed_try | apply framed_attempt
    | apply framed_ret | apply framed_raise | apply framed_call
    | match goal with
      | |- framed (if ?b then _ else _) => destruct b
      | |- framed (match ?x with _ => _ end) => destruct x
      end ].

Lemma framed_exhausted {A} fin (a : A) : framed (W:=W) (exhausted fin a).
Proof. unfold exhausted. framed. Qed.

Lemma framed_is_server_running : framed (is_server_running cfg).
Proof.
  unfold is_server_running, subprocess_run, process_iter. framed.
  apply framed_exhausted.
Qed.

(** ** Detection *)

Lemma is_server_running_total s :
  exists b, snd (is_server_running cfg s) = Returned b.
Proof.
  unfold is_server_running, try_except, bind, subprocess_run, process_iter,
    call, exhausted, ret, raise.
  destruct s as [w t]; simpl.
  destruct (host_run is_active_argv 2 w) as [w1 [c1|e1]]; simpl; eauto.
  destruct (returncode c1 =? 0)%Z; simpl; eauto.
  destruct (host_run (screen_ls_argv cfg) 2 w1) as [w2 [c2|e2]]; simpl; eauto.
  destruct (contains _ _); simpl; eauto.
  destruct (host_process_iter w2) as [w3 [items fin]]; simpl.
  destruct (scan_running items); simpl; eauto.
  destruct fin; simpl; eauto.
Qed.

(** The probes a detection run consulted, as a nonempty prefix of the
    fixed order. *)
Lemma is_server_running_trace s :
  exists n, (1 <= n <= 3)%nat /\
    trace (fst (is_server_running cfg s))
    = trace s ++ take n (detection_events cfg).
Proof.
  unfold is_server_running, try_except, bind, subprocess_run, process_iter,
    call, exhausted, ret, raise.
  destruct s as [w t]; simpl.
  destruct (host_run is_active_argv 2 w) as [w1 [c1|e1]]; simpl;
    [|exists 1%nat; split; [lia|done]].
  destruct (returncode c1 =? 0)%Z; simpl; [exists 1%nat; split; [lia|done]|].
  destruct (host_run (screen_ls_argv cfg) 2 w1) as [w2 [c2|e2]]; simpl;
    [|exists 2%nat; split; [lia|by rewrite <- app_assoc]].
  destruct (contains _ _); simpl;
    [exists 2%nat; split; [lia|by rewrite <- app_assoc]|].
  destruct (host_process_iter w2) as [w3 [items fin]]; simpl.
  exists 3%nat. split; [lia|].
  destruct (scan_running items); simpl; [by rewrite <- !app_assoc|].
  destruct fin; simpl; by rewrite <- !app_assoc.
Qed.

Lemma probe_not_action e : e ∈ detection_events cfg -> is_action cfg e = false.
Proof.
  intros He. destruct e; simpl; try done.
  - apply bool_decide_eq_false_2. by intros Hn.
  - exfalso. unfold detection_events in He.
    repeat (apply elem_of_cons in He as [He|He]; [discriminate|]).
    by apply elem_of_nil in He.
  - exfalso. unfold detection_events in He.
    repeat (apply elem_of_cons in He as [He|He]; [discriminate|]).
    by apply elem_of_nil in He.
Qed.

Lemma detection_events_passive n : actions cfg (take n (detection_events cfg)) = [].
Proof.
  unfold actions.
  assert (Hall : forall l : list event,
             (forall e, e ∈ l -> is_action cfg e = false) ->
             List.filter (is_action cfg) l = []).
  { induction l as [|e l IH]; intros Hl; [done|]. simpl.
    rewrite (Hl e) by set_solver. apply IH. intros. apply Hl. set_solver. }
  apply Hall. intros e He. apply probe_not_action.
  eapply subseteq_take, He.
Qed.

(** Detection issues no action. *)
Lemma is_server_running_passive s :
  actions cfg (trace (fst (is_server_running cfg s))) = actions cfg (trace s).
Proof.
  destruct (is_server_running_trace s) as (n & _ & ->).
  unfold actions. rewrite List.filter_app.
  fold (actions cfg (take n (detection_events cfg))).
  by rewrite detection_events_passive, app_nil_r.
Qed.

(** The answer of a detection run is a function of the outside world. *)
Lemma is_server_running_world s s' :
  world s = world s' ->
  snd (is_server_running cfg s) = snd (is_server_running cfg s')
  /\ world (fst (is_server_running cfg s))
     = world (fst (is_server_running cfg s')).
Proof.
  intros Hw.
  rewrite (framed_is_server_running s), (framed_is_server_running s'), Hw.
  done.
Qed.

Lemma is_server_running_eq s :
  is_server_running cfg s = (after_detection cfg s, Returned (running cfg s)).
Proof.
  unfold after_detection, running.
  destruct (is_server_running_total s) as [b Hb].
  destruct (is_server_running cfg s) as [s' r]; simpl in *. by subst.
Qed.

(** ** Preconditions of [stop] and [start] *)

Lemma stop_not_running s :
  running cfg s = false ->
  stop cfg s
  = (after_detection cfg s, Returned (error_response "Server is not running" 400)).
Proof.
  intros Hr. unfold stop, try_except, bind.
  rewrite is_server_running_eq, Hr. done.
Qed.

Lemma start_already_running s :
  running cfg s = true ->
  start cfg s
  = (after_detection cfg s,
     Returned (error_response "Server is already running" 400)).
Proof.
  intros Hr. unfold start, try_except, bind.
  rewrite is_server_running_eq, Hr. done.
Qed.

(** C6.  A call of [stop] whose detection reports the server stopped
    answers 400 "Server is not running", and a call of [start] whose
    detection reports it running answers 400 "Server is already running";
    in both cases the call ends in the state the detection left, so that
    nothing but the detection probes has been run and no action is in the
    trace. *)
Theorem precondition_violations s :
  (running cfg s = false ->
   stop cfg s
   = (after_detection cfg s,
      Returned (error_response "Server is not running" 400))
   /\ actions cfg (trace (fst (stop cfg s))) = actions cfg (trace s))
  /\ (running cfg s = true ->
      start cfg s
      = (after_detection cfg s,
         Returned (error_response "Server is already running" 400))
      /\ actions cfg (trace (fst (start cfg s))) = actions cfg (trace s)).
Proof.
  split; intros Hr.
  - rewrite (stop_not_running s Hr). split; [done|].
    apply is_server_running_passive.
  - rewrite (start_already_running s Hr). split; [done|].
    apply is_server_running_passive.
Qed.

(** C7, as amended.  Detection consults the service manager, then the
    session manager, then the process table, in that order and each in the
    outside state its predecessor left.  Its answer is the one the first
    verdict that is not negative stands for: running when that verdict is
    positive, stopped when it is a failure (the probe call raised, and the
    later probes are not consulted) or when all three are negative.  The
    trace grows by exactly the probes consulted.  A second run in an
    unchanged outside state gives the same answer. *)
Theorem detection_first_positive s :
  let r1 := host_run is_active_argv 2 (world s) in
  let r2 := host_run (screen_ls_argv cfg) 2 (fst r1) in
  let r3 := host_process_iter (fst r2) in
  let vs := [service_verdict (snd r1); session_verdict cfg (snd r2);
             scan_verdict (snd r3)] in
  snd (is_server_running cfg s) = Returned (first_positive vs)
  /\ trace (fst (is_server_running cfg s))
     = trace s ++ take (consulted vs) (detection_events cfg)
  /\ (world (fst (is_server_running cfg s)) = world s ->
      snd (is_server_running cfg (fst (is_server_running cfg s)))
      = snd (is_server_running cfg s)).
Proof.
  simpl. split; [|split].
  - unfold is_server_running, try_except, bind, subprocess_run, process_iter,
      call, exhausted, ret, raise, scan_verdict.
    destruct s as [w t]; simpl.
    destruct (host_run is_active_argv 2 w) as [w1 [c1|e1]]; simpl; [|done].
    destruct (returncode c1 =? 0)%Z; simpl; [done|].
    destruct (host_run (screen_ls_argv cfg) 2 w1) as [w2 [c2|e2]]; simpl; [|done].
    destruct (contains _ _); simpl; [done|].
    destruct (host_process_iter w2) as [w3 [items fin]]; simpl.
    destruct (scan_running items); simpl; [done|].
    by destruct fin.
  - unfold is_server_running, try_except, bind, subprocess_run, process_iter,
      call, exhausted, ret, raise, scan_verdict.
    destruct s as [w t]; simpl.
    destruct (host_run is_active_argv 2 w) as [w1 [c1|e1]]; simpl; [|done].
    destruct (returncode c1 =? 0)%Z; simpl; [done|].
    destruct (host_run (screen_ls_argv cfg) 2 w1) as [w2 [c2|e2]]; simpl;
      [|by rewrite <- app_assoc].
    destruct (contains _ _); simpl; [by rewrite <- app_assoc|].
    destruct (host_process_iter w2) as [w3 [items fin]]; simpl.
    destruct (scan_running items); simpl; [by rewrite <- !app_assoc|].
    destruct fin; by rewrite <- !app_assoc.
  - intros Hw. by apply is_server_running_world.
Qed.

(** ** The stop escalation *)

Lemma get_server_pid_total s : exists p, snd (get_server_pid s) = Returned p.
Proof.
  unfold get_server_pid, try_except, bind, process_iter, call, exhausted, ret, raise.
  destruct s as [w t]; simpl.
  destruct (host_process_iter w) as [w1 [items fin]]; simpl.
  destruct (scan_pid items); simpl; eauto.
  destruct fin; simpl; eauto.
Qed.

Lemma kill_step_total s : snd (kill_step s) = Returned tt.
Proof.
  unfold kill_step, bind.
  destruct (get_server_pid_total s) as [p Hp].
  destruct (get_server_pid s) as [s1 r]; simpl in *; subst r.
  destruct p as [p|]; [|done].
  destruct (p =? 0)%Z; [done|].
  unfold attempt, psutil_Process, call. destruct s1 as [w1 t1]; simpl.
  destruct (host_process p w1) as [w2 [[]|e]]; simpl; [|done].
  unfold try_except, bind, proc_terminate, proc_wait, proc_kill, call, ret; simpl.
  destruct (host_terminate p w2) as [w3 [[]|e]]; simpl.
  - destruct (host_wait p 10 w3) as [w4 [[]|e]]; simpl; [done|].
    by destruct (host_kill p w4) as [w5 [[]|e']].
  - by destruct (host_kill p w3) as [w5 [[]|e']].
Qed.

Lemma screen_step_eq s :
  screen_step cfg s
  = match host_run (screen_stop_argv cfg) 5 (world s) with
    | (w, Returned _) => verified cfg s w (ERun (screen_stop_argv cfg) 5)
    | (w, Raised _) =>
        (State w (trace s ++ [ERun (screen_stop_argv cfg) 5]), Returned None)
    end.
Proof.
  unfold screen_step, verified, waited, try_except, bind, subprocess_run,
    time_sleep, call.
  destruct s as [w t]; simpl.
  destruct (host_run (screen_stop_argv cfg) 5 w) as [w1 [c|e]]; simpl; [|done].
  rewrite <- app_assoc. simpl.
  rewrite is_server_running_eq. by destruct (running cfg _).
Qed.

Lemma rcon_step_eq s :
  let mcrcon := mcrcon_path (world s) in
  let looked :=
    State (world s) (trace s ++ [EExists "/usr/bin/mcrcon"; EExists mcrcon]) in
  rcon_step cfg s
  = if host_exists mcrcon (world s) then
      match host_run (mcrcon_stop_argv cfg mcrcon) 10 (world s) with
      | (w, Returned _) => verified cfg looked w (ERun (mcrcon_stop_argv cfg mcrcon) 10)
      | (w, Raised _) =>
          (State w (trace looked ++ [ERun (mcrcon_stop_argv cfg mcrcon) 10]),
           Returned None)
      end
    else (looked, Returned None).
Proof.
  unfold rcon_step, verified, waited, mcrcon_path, try_except, bind,
    subprocess_run, time_sleep, os_path_exists, call, ret.
  destruct s as [w t]; simpl.
  destruct (host_exists "/usr/bin/mcrcon" w) eqn:E1; simpl.
  - rewrite E1. rewrite <- !app_assoc. simpl.
    destruct (host_run _ 10 w) as [w1 [c|e]]; simpl;
      [|by rewrite <- !app_assoc].
    rewrite <- !app_assoc. simpl.
    rewrite is_server_running_eq. by destruct (running cfg _).
  - rewrite <- !app_assoc. simpl.
    destruct (host_exists "/usr/local/bin/mcrcon" w) eqn:E2; simpl; [|done].
    destruct (host_run _ 10 w) as [w1 [c|e]]; simpl;
      [|by rewrite <- !app_assoc].
    rewrite <- !app_assoc. simpl.
    rewrite is_server_running_eq. by destruct (running cfg _).
Qed.

Lemma stop_running s :
  running cfg s = true ->
  let s0 := after_detection cfg s in
  let issued := trace s0 ++ [ERun systemctl_stop_argv 10] in
  stop cfg s
  = match host_run systemctl_stop_argv 10 (world s0) with
    | (w, Raised e) => (State w issued, Returned (error_response e 500))
    | (w, Returned c) =>
        if (returncode c =? 0)%Z then (State w issued, Returned stopped)
        else fallbacks cfg (State w issued)
    end.
Proof.
  intros Hr. simpl. unfold stop, fallbacks, try_except, bind.
  rewrite is_server_running_eq, Hr. simpl.
  unfold subprocess_run, call.
  destruct (host_run systemctl_stop_argv 10 _) as [w1 [c|e]]; simpl; [|done].
  destruct (returncode c =? 0)%Z; simpl; [done|].
  set (s1 := State w1 _).
  pose proof (rcon_step_eq s1) as Hrcon. simpl in Hrcon.
  assert (exists r, snd (rcon_step cfg s1) = Returned r) as [r1 Hr1].
  { rewrite Hrcon. unfold verified.
    destruct (host_exists _ _); [|simpl; eauto].
    destruct (host_run _ 10 _) as [? [?|?]]; simpl; eauto. }
  destruct (rcon_step cfg s1) as [s2 o1]; simpl in Hr1; subst o1.
  destruct r1 as [resp|]; [done|].
  assert (exists r, snd (screen_step cfg s2) = Returned r) as [r2 Hr2].
  { rewrite screen_step_eq. unfold verified.
    destruct (host_run _ 5 _) as [? [?|?]]; simpl; eauto. }
  destruct (screen_step cfg s2) as [s3 o2]; simpl in Hr2; subst o2.
  destruct r2 as [resp|]; [done|].
  pose proof (kill_step_total s3) as Hk.
  destruct (kill_step s3) as [s4 o3]; simpl in *. by subst o3.
Qed.

(** *** The order of the actions *)

Lemma actions_app t1 t2 : actions cfg (t1 ++ t2) = actions cfg t1 ++ actions cfg t2.
Proof. unfold actions. apply List.filter_app. Qed.

Lemma command_is_action argv t : t <> 2%nat -> is_action cfg (ERun argv t) = true.
Proof.
  intros Ht. unfold is_action, detection_events. apply bool_decide_eq_true_2.
  intros Hin.
  repeat (apply elem_of_cons in Hin as [Hin|Hin]; [congruence|]).
  by apply elem_of_nil in Hin.
Qed.

Lemma actions_cons e t :
  actions cfg (e :: t)
  = if is_action cfg e then e :: actions cfg t else actions cfg t.
Proof. done. Qed.

Lemma actions_command argv n t :
  n <> 2%nat -> actions cfg (ERun argv n :: t) = ERun argv n :: actions cfg t.
Proof. intros Hn. by rewrite actions_cons, command_is_action. Qed.

Ltac solve_sublist :=
  cbv [actions List.filter is_action];
  repeat first [apply sublist_nil_l | apply sublist_skip | apply sublist_cons].

Lemma detection_emits s :
  exists d, trace (after_detection cfg s) = trace s ++ d /\ actions cfg d = [].
Proof.
  destruct (is_server_running_trace s) as (n & _ & Hn).
  exists (take n (detection_events cfg)). split; [done|].
  apply detection_events_passive.
Qed.

Lemma verified_emits s w argv t :
  t <> 2%nat ->
  exists d, trace (fst (verified cfg s w (ERun argv t))) = trace s ++ d
            /\ actions cfg d = [ERun argv t].
Proof.
  intros Ht. unfold verified. simpl.
  destruct (detection_emits (waited s w (ERun argv t))) as (d & Hd & Hpassive).
  exists ([ERun argv t; ESleep 3] ++ d). split.
  - rewrite Hd. simpl. by rewrite <- app_assoc.
  - rewrite actions_app, Hpassive, app_nil_r.
    by rewrite actions_command.
Qed.

Lemma screen_step_emits s :
  exists t, trace (fst (screen_step cfg s)) = trace s ++ t
            /\ actions cfg t `sublist_of` [ERun (screen_stop_argv cfg) 5].
Proof.
  rewrite screen_step_eq.
  destruct (host_run (screen_stop_argv cfg) 5 (world s)) as [w [c|e]].
  - destruct (verified_emits s w (screen_stop_argv cfg) 5) as (d & Hd & Ha); [lia|].
    exists d. by rewrite Ha.
  - exists [ERun (screen_stop_argv cfg) 5]. split; [done|].
    by rewrite actions_command by lia.
Qed.

Lemma rcon_step_emits s :
  exists t, trace (fst (rcon_step cfg s)) = trace s ++ t
            /\ actions cfg t
               `sublist_of` [ERun (mcrcon_stop_argv cfg (mcrcon_path (world s))) 10].
Proof.
  rewrite rcon_step_eq. simpl.
  set (mcrcon := mcrcon_path (world s)).
  set (looked := State (world s) _).
  destruct (host_exists mcrcon (world s)).
  - destruct (host_run _ 10 (world s)) as [w [c|e]].
    + destruct (verified_emits looked w (mcrcon_stop_argv cfg mcrcon) 10)
        as (d & Hd & Ha); [lia|].
      exists ([EExists "/usr/bin/mcrcon"; EExists mcrcon] ++ d). split.
      * rewrite Hd. simpl. by rewrite <- app_assoc.
      * rewrite actions_app, Ha. done.
    + exists [EExists "/usr/bin/mcrcon"; EExists mcrcon;
              ERun (mcrcon_stop_argv cfg mcrcon) 10]. split.
      * simpl. by rewrite <- app_assoc.
      * change (actions cfg [ERun (mcrcon_stop_argv cfg mcrcon) 10]
                `sublist_of` [ERun (mcrcon_stop_argv cfg mcrcon) 10]).
        by rewrite actions_command by lia.
  - exists [EExists "/usr/bin/mcrcon"; EExists mcrcon]. split; [done|].
    apply sublist_nil_l.
Qed.

Lemma get_server_pid_eq s :
  exists w found,
    get_server_pid s = (State w (trace s ++ [EProcessIter]), Returned found).
Proof.
  unfold get_server_pid, try_except, bind, process_iter, call, exhausted, ret, raise.
  destruct s as [w t]; simpl.
  destruct (host_process_iter w) as [w1 [items fin]]; simpl.
  destruct (scan_pid items); simpl; eauto.
  destruct fin; simpl; eauto.
Qed.

Lemma kill_step_emits s :
  exists t p, trace (fst (kill_step s)) = trace s ++ t
              /\ actions cfg t `sublist_of` [ETerminate p; EKill p].
Proof.
  unfold kill_step, bind.
  destruct (get_server_pid_eq s) as (w1 & found & ->).
  assert (Hnone : exists t0 p,
             trace s ++ [EProcessIter] = trace s ++ t0
             /\ actions cfg t0 `sublist_of` [ETerminate p; EKill p]).
  { exists [EProcessIter], 0%Z. split; [done|]. solve_sublist. }
  destruct found as [p|]; [|exact Hnone].
  destruct (p =? 0)%Z; [exact Hnone|].
  unfold attempt, psutil_Process, call; simpl.
  destruct (host_process p w1) as [w2 [[]|e]]; simpl.
  2:{ exists [EProcessIter; EProcess p], p. split; [by rewrite <- app_assoc|].
      solve_sublist. }
  unfold try_except, bind, proc_terminate, proc_wait, proc_kill, call, ret; simpl.
  destruct (host_terminate p w2) as [w3 [[]|e]]; simpl.
  - destruct (host_wait p 10 w3) as [w4 [[]|e]]; simpl.
    + exists [EProcessIter; EProcess p; ETerminate p; EWait p 10], p.
      split; [by rewrite <- !app_assoc|]. solve_sublist.
    + destruct (host_kill p w4) as [w5 [[]|e']]; simpl;
        exists [EProcessIter; EProcess p; ETerminate p; EWait p 10; EKill p], p;
        (split; [by rewrite <- !app_assoc|]); solve_sublist.
  - destruct (host_kill p w3) as [w5 [[]|e']]; simpl;
      exists [EProcessIter; EProcess p; ETerminate p; EKill p], p;
      (split; [by rewrite <- !app_assoc|]); solve_sublist.
Qed.

Lemma fallbacks_emit s :
  exists t p, trace (fst (fallbacks cfg s)) = trace s ++ t
    /\ actions cfg t
       `sublist_of` [ERun (mcrcon_stop_argv cfg (mcrcon_path (world s))) 10;
                     ERun (screen_stop_argv cfg) 5; ETerminate p; EKill p].
Proof.
  unfold fallbacks.
  destruct (rcon_step_emits s) as (t1 & Ht1 & Ha1).
  destruct (rcon_step cfg s) as [s2 o1]; simpl in Ht1.
  assert (Hskip : forall t p,
             actions cfg t `sublist_of` [ERun (screen_stop_argv cfg) 5;
                                         ETerminate p; EKill p] ->
             actions cfg (t1 ++ t)
             `sublist_of` [ERun (mcrcon_stop_argv cfg (mcrcon_path (world s))) 10;
                           ERun (screen_stop_argv cfg) 5; ETerminate p; EKill p]).
  { intros t p Ht. rewrite actions_app.
    by apply (sublist_app _ [_] _ _). }
  assert (Hrest : exists t p,
             trace (fst match screen_step cfg s2 with
                        | (s3, Returned (Some resp)) => (s3, Returned resp)
                        | (s3, _) => (fst (kill_step s3), Returned stopped)
                        end) = trace s2 ++ t
             /\ actions cfg t `sublist_of` [ERun (screen_stop_argv cfg) 5;
                                            ETerminate p; EKill p]).
  { destruct (screen_step_emits s2) as (t2 & Ht2 & Ha2).
    destruct (screen_step cfg s2) as [s3 o2]; simpl in Ht2.
    destruct (kill_step_emits s3) as (t3 & p & Ht3 & Ha3).
    assert (Hkill : trace (fst (kill_step s3)) = trace s2 ++ (t2 ++ t3)
                    /\ actions cfg (t2 ++ t3)
                       `sublist_of` [ERun (screen_stop_argv cfg) 5;
                                     ETerminate p; EKill p]).
    { split; [by rewrite Ht3, Ht2, app_assoc|].
      rewrite actions_app. by apply (sublist_app _ [_] _ _). }
    destruct o2 as [[resp|]|e]; simpl.
    - exists t2, 0%Z. split; [done|].
      by apply (sublist_inserts_r [ETerminate 0; EKill 0] _ [_]).
    - exists (t2 ++ t3), p. exact Hkill.
    - exists (t2 ++ t3), p. exact Hkill. }
  destruct o1 as [[resp|]|e]; simpl.
  - exists t1, 0%Z. split; [done|].
    by apply (sublist_inserts_r [_; ETerminate 0; EKill 0] _ [_]).
  - destruct Hrest as (t & p & Ht & Ha). exists (t1 ++ t), p.
    split; [by rewrite Ht, Ht1, app_assoc|]. by apply Hskip.
  - destruct Hrest as (t & p & Ht & Ha). exists (t1 ++ t), p.
    split; [by rewrite Ht, Ht1, app_assoc|]. by apply Hskip.
Qed.

Lemma stop_in_order s :
  running cfg s = true ->
  exists t mcrcon p,
    trace (fst (stop cfg s)) = trace (after_detection cfg s) ++ t
    /\ actions cfg t `sublist_of` escalation_chain cfg mcrcon p.
Proof.
  intros Hr. rewrite (stop_running s Hr). simpl.
  set (s0 := after_detection cfg s).
  assert (Hfirst : actions cfg [ERun systemctl_stop_argv 10]
                   = [ERun systemctl_stop_argv 10]).
  { by rewrite actions_command by lia. }
  destruct (host_run systemctl_stop_argv 10 (world s0)) as [w [c|e]].
  - destruct (returncode c =? 0)%Z.
    + exists [ERun systemctl_stop_argv 10], "", 0%Z. split; [done|].
      rewrite Hfirst. unfold escalation_chain. solve_sublist.
    + destruct (fallbacks_emit (State w (trace s0 ++ [ERun systemctl_stop_argv 10])))
        as (t & p & Ht & Ha).
      exists ([ERun systemctl_stop_argv 10] ++ t), (mcrcon_path w), p. split.
      * rewrite Ht. simpl. by rewrite <- app_assoc.
      * rewrite actions_app, Hfirst. unfold escalation_chain.
        by apply sublist_skip.
  - exists [ERun systemctl_stop_argv 10], "", 0%Z. split; [done|].
    rewrite Hfirst. unfold escalation_chain. solve_sublist.
Qed.

(** C1, as amended.  On a server detected as running, [stop] works
    through its steps strictly in the order service-manager stop, RCON stop
    command, screen console stop, forced termination:

    - the actions it issues are a subsequence of that chain;
    - the service-manager step has neither wait nor detection: when its
      command exits with 0 the sequence ends there with success, and
      otherwise the fallback steps take over;
    - the RCON step (attempted only when an mcrcon binary is installed) and
      the screen step are verified steps: once their command has returned
      they sleep three seconds and run a fresh detection, and they end the
      sequence with success exactly when that detection reports the server
      stopped; a verified step whose command raises hands over to the next
      step;
    - forced termination comes last.

    In particular, when the service-manager stop exits non-zero, the RCON
    command returns and its post-wait detection still reports the server
    running, and the screen command returns and its post-wait detection
    reports it stopped, the result is success and exactly three actions
    have been issued, in order. *)
Theorem stop_escalation s :
  running cfg s = true ->
  let s0 := after_detection cfg s in
  let issued := trace s0 ++ [ERun systemctl_stop_argv 10] in
  (exists t mcrcon p,
      trace (fst (stop cfg s)) = trace s0 ++ t
      /\ actions cfg t `sublist_of` escalation_chain cfg mcrcon p)
  /\ (forall w c,
        host_run systemctl_stop_argv 10 (world s0) = (w, Returned c) ->
        stop cfg s
        = if (returncode c =? 0)%Z then (State w issued, Returned stopped)
          else fallbacks cfg (State w issued))
  /\ (forall s1,
        let mcrcon := mcrcon_path (world s1) in
        let looked :=
          State (world s1)
                (trace s1 ++ [EExists "/usr/bin/mcrcon"; EExists mcrcon]) in
        let command := ERun (mcrcon_stop_argv cfg mcrcon) 10 in
        rcon_step cfg s1
        = if host_exists mcrcon (world s1) then
            match host_run (mcrcon_stop_argv cfg mcrcon) 10 (world s1) with
            | (w, Returned _) => verified cfg looked w command
            | (w, Raised _) => (State w (trace looked ++ [command]), Returned None)
            end
          else (looked, Returned None))
  /\ (forall s2,
        let command := ERun (screen_stop_argv cfg) 5 in
        screen_step cfg s2
        = match host_run (screen_stop_argv cfg) 5 (world s2) with
          | (w, Returned _) => verified cfg s2 w command
          | (w, Raised _) => (State w (trace s2 ++ [command]), Returned None)
          end)
  /\ (forall w1 c1 w2 c2 w3 c3,
        host_run systemctl_stop_argv 10 (world s0) = (w1, Returned c1) ->
        returncode c1 <> 0%Z ->
        let mcrcon := mcrcon_path w1 in
        let looked :=
          State w1 (issued ++ [EExists "/usr/bin/mcrcon"; EExists mcrcon]) in
        host_exists mcrcon w1 = true ->
        host_run (mcrcon_stop_argv cfg mcrcon) 10 w1 = (w2, Returned c2) ->
        let second := waited looked w2 (ERun (mcrcon_stop_argv cfg mcrcon) 10) in
        running cfg second = true ->
        let s2 := after_detection cfg second in
        host_run (screen_stop_argv cfg) 5 (world s2) = (w3, Returned c3) ->
        let third := waited s2 w3 (ERun (screen_stop_argv cfg) 5) in
        running cfg third = false ->
        stop cfg s = (after_detection cfg third, Returned stopped)
        /\ actions cfg (trace (fst (stop cfg s)))
           = actions cfg (trace s)
             ++ [ERun systemctl_stop_argv 10;
                 ERun (mcrcon_stop_argv cfg mcrcon) 10;
                 ERun (screen_stop_argv cfg) 5]).
Proof.
  intros Hr s0 issued. split; [|split; [|split; [|split]]].
  - by apply stop_in_order.
  - intros w c Hc. rewrite (stop_running s Hr). fold s0. by rewrite Hc.
  - intros s1. apply rcon_step_eq.
  - intros s2. apply screen_step_eq.
  - intros w1 c1 w2 c2 w3 c3 Hc1 Hrc mcrcon looked Hm Hc2 second Hsecond s2
      Hc3 third Hthird.
    assert (Hstop : stop cfg s = (after_detection cfg third, Returned stopped)).
    { rewrite (stop_running s Hr). fold s0. rewrite Hc1.
      apply Z.eqb_neq in Hrc. rewrite Hrc.
      unfold fallbacks. rewrite rcon_step_eq. simpl.
      fold mcrcon. rewrite Hm, Hc2. unfold verified.
      fold issued. fold looked. fold second. rewrite Hsecond. fold s2.
      rewrite screen_step_eq, Hc3. unfold verified. fold third.
      by rewrite Hthird. }
    split; [done|].
    rewrite Hstop. simpl.
    destruct (detection_emits third) as (d3 & -> & Hd3).
    destruct (detection_emits second) as (d2 & Hs2 & Hd2).
    destruct (detection_emits s) as (d0 & Hs0 & Hd0).
    unfold third, waited. simpl. unfold s2. rewrite Hs2.
    unfold second, waited, looked, issued. simpl. unfold s0. rewrite Hs0.
    rewrite !actions_app, Hd3, Hd2, Hd0, !app_nil_r.
    rewrite <- !app_assoc. f_equal.
    by rewrite !actions_command by lia.
Qed.

Lemma stop_total s : exists resp, snd (stop cfg s) = Returned resp.
Proof.
  destruct (running cfg s) eqn:Hr.
  - rewrite (stop_running s Hr). simpl.
    destruct (host_run systemctl_stop_argv 10 _) as [w [c|e]]; simpl; eauto.
    destruct (returncode c =? 0)%Z; simpl; eauto.
    unfold fallbacks.
    destruct (rcon_step cfg _) as [s2 [[?|]|?]]; simpl; eauto;
      destruct (screen_step cfg s2) as [s3 [[?|]|?]]; simpl; eauto.
  - rewrite (stop_not_running s Hr). simpl. eauto.
Qed.

(** C2, as amended.  [stop] has exactly two failure outcomes: 400 when the
    detection at entry reports the server stopped, and 500, carrying the
    message of the exception, when the service-manager stop command
    raises.  In every other case it answers [{"status": "stopped"}] with
    200; in particular, when both verified steps hand over, the call ends
    in the state forced termination left, with success and without any
    detection after it. *)
Theorem stop_outcomes s :
  let s0 := after_detection cfg s in
  let issued := trace s0 ++ [ERun systemctl_stop_argv 10] in
  (if running cfg s then
     match snd (host_run systemctl_stop_argv 10 (world s0)) with
     | Raised e => snd (stop cfg s) = Returned (error_response e 500)
     | Returned _ => snd (stop cfg s) = Returned stopped
     end
   else snd (stop cfg s) = Returned (error_response "Server is not running" 400))
  /\ (forall w c s2 s3,
        running cfg s = true ->
        host_run systemctl_stop_argv 10 (world s0) = (w, Returned c) ->
        returncode c <> 0%Z ->
        rcon_step cfg (State w issued) = (s2, Returned None) ->
        screen_step cfg s2 = (s3, Returned None) ->
        stop cfg s = (fst (kill_step s3), Returned stopped)).
Proof.
  intros s0 issued. split.
  - destruct (running cfg s) eqn:Hr.
    + rewrite (stop_running s Hr). fold s0.
      destruct (host_run systemctl_stop_argv 10 (world s0)) as [w [c|e]]; simpl;
        [|done].
      destruct (returncode c =? 0)%Z; [done|].
      unfold fallbacks.
      destruct (rcon_step cfg _) as [s2 o1] eqn:E1.
      pose proof (rcon_step_eq (State w (trace s0 ++ [ERun systemctl_stop_argv 10])))
        as Hrcon.
      rewrite E1 in Hrcon. simpl in Hrcon.
      assert (Ho1 : o1 = Returned None \/ o1 = Returned (Some stopped)).
      { unfold verified in Hrcon.
        destruct (host_exists _ _); [|inversion Hrcon; first [by left | by right]].
        destruct (host_run _ 10 _) as [? [?|?]]; [|inversion Hrcon; first [by left | by right]].
        destruct (running cfg (waited _ _ _)); inversion Hrcon; first [by left | by right]. }
      destruct Ho1 as [-> | ->]; [|done].
      destruct (screen_step cfg s2) as [s3 o2] eqn:E2.
      pose proof (screen_step_eq s2) as Hscreen. rewrite E2 in Hscreen.
      assert (Ho2 : o2 = Returned None \/ o2 = Returned (Some stopped)).
      { unfold verified in Hscreen.
        destruct (host_run _ 5 _) as [? [?|?]]; [|inversion Hscreen; first [by left | by right]].
        destruct (running cfg (waited _ _ _)); inversion Hscreen; first [by left | by right]. }
      by destruct Ho2 as [-> | ->].
    + by rewrite (stop_not_running s Hr).
  - intros w c s2 s3 Hr Hc Hrc H1 H2.
    rewrite (stop_running s Hr). fold s0. rewrite Hc.
    apply Z.eqb_neq in Hrc. rewrite Hrc.
    unfold fallbacks. fold issued. by rewrite H1, H2.
Qed.

Lemma start_total s : exists resp, snd (start cfg s) = Returned resp.
Proof.
  unfold start, try_except, bind.
  rewrite is_server_running_eq.
  destruct (running cfg s); simpl; [unfold ret; simpl; eauto|].
  unfold subprocess_run, os_path_exists, call, ret.
  destruct (after_detection cfg s) as [w t]; simpl.
  destruct (host_run systemctl_start_argv 5 w) as [w1 [c|e]]; simpl; eauto.
  destruct (returncode c =? 0)%Z; simpl; eauto.
  destruct (host_exists _ w1); simpl; eauto.
  destruct (host_run (screen_start_argv cfg) 10 w1) as [w2 [c2|e]]; simpl; eauto.
  destruct (returncode c2 =? 0)%Z; simpl; eauto.
Qed.

(** C3, as amended.  [restart] drops what [stop] returns: whether the stop
    phase succeeded or failed, it sleeps two seconds, calls [start] and
    answers [{"status": "restarting"}] with 200.  The [start] it calls
    issues no action when its own detection reports the server running. *)
Theorem restart_discards_stop s :
  let s0 := after_detection cfg s in
  let s1 := if running cfg s
            then fst (time_sleep 2 (fst (stop cfg s0)))
            else s0 in
  restart cfg s
  = (fst (start cfg s1), Returned (jsonify [("status", JStr "restarting")]))
  /\ (running cfg s1 = true ->
      actions cfg (trace (fst (restart cfg s))) = actions cfg (trace s1)).
Proof.
  intros s0 s1.
  assert (Heq : restart cfg s
                = (fst (start cfg s1),
                   Returned (jsonify [("status", JStr "restarting")]))).
  { unfold restart, try_except, bind.
    rewrite is_server_running_eq. fold s0. subst s1.
    destruct (running cfg s).
    - destruct (stop_total s0) as [resp Hresp].
      destruct (stop cfg s0) as [s' o]; simpl in *; subst o.
      unfold time_sleep, call; simpl.
      destruct (start_total (State (host_sleep 2 (world s')) (trace s' ++ [ESleep 2])))
        as [resp' Hresp'].
      destruct (start cfg _) as [s'' o]; simpl in *. by subst o.
    - unfold ret; simpl.
      destruct (start_total s0) as [resp' Hresp'].
      destruct (start cfg s0) as [s'' o]; simpl in *. by subst o. }
  split; [done|].
  intros Hr. rewrite Heq. simpl.
  rewrite (start_already_running s1 Hr). simpl.
  apply is_server_running_passive.
Qed.

(** ** The log endpoint *)

(** For a positive request the response carries the last
    [min(requested, 500, total)] lines and the total. *)
Lemma get_log_last_lines s n w log_lines :
  host_exists (log_file cfg) (world s) = true ->
  host_readlines (log_file cfg) (world s) = (w, Returned log_lines) ->
  (0 < n)%Z ->
  get_log cfg (LinesInt n) s
  = (State w (trace s ++ [EExists (log_file cfg); EReadLines (log_file cfg)]),
     Returned
       (jsonify
          [("status", JStr "ok");
           ("lines",
            JArr (JStr <$> drop (length log_lines - Z.to_nat (Z.min n 500))
                             log_lines));
           ("total_lines", JNum (Z.of_nat (length log_lines)))])).
Proof.
  intros Hex Hread Hn.
  unfold get_log, try_except, bind, os_path_exists, readlines, call, ret.
  destruct s as [w0 t]; simpl in *. rewrite Hex. simpl. rewrite Hread. simpl.
  rewrite <- app_assoc. simpl. do 5 f_equal.
  unfold slice_from.
  destruct (Z.of_nat (length log_lines) >? Z.min n 500)%Z eqn:Hlen.
  - apply Z.gtb_lt in Hlen.
    replace (- Z.min n 500 <? 0)%Z with true by (symmetry; apply Z.ltb_lt; lia).
    do 4 f_equal. lia.
  - assert (Z.of_nat (length log_lines) <= Z.min n 500)%Z
      by (rewrite Z.gtb_ltb in Hlen; apply Z.ltb_ge in Hlen; lia).
    replace (length log_lines - Z.to_nat (Z.min n 500))%nat with 0%nat by lia.
    done.
Qed.

End MinecraftFacts.

(** * Properties of the printer controller *)

Section PrinterFacts.

Import Printer.
#[local] Open Scope list_scope.

Context {W : Type} `{Host W}.
Variable cfg : config.

(** ** Computations that never raise *)

Lemma total_ret {A} (a : A) : total (ret a : M (state W) A).
Proof. intros s. by exists a. Qed.

Lemma total_bind {A B} (m : M (state W) A) (k : A -> M (state W) B) :
  total m -> (forall a, total (k a)) -> total (bind m k).
Proof.
  intros Hm Hk s. unfold bind. destruct (Hm s) as [a Ha].
  destruct (m s) as [s' r]; simpl in Ha; subst r. apply Hk.
Qed.

Lemma total_try {A} (m : M (state W) A) (h : exn -> M (state W) A) :
  (forall e, total (h e)) -> total (try_except m h).
Proof.
  intros Hh s. unfold try_except.
  destruct (m s) as [s' [a|e]]; [by exists a|apply Hh].
Qed.

Lemma total_call {A} (e : event) (f : W -> W * A) :
  total (call e (fun w => let '(w', a) := f w in (w', Returned a))).
Proof. intros s. unfold call. destruct (f (world s)) as [w' a]. by exists a. Qed.

Lemma total_get {A} (f : state W -> A) : total (get f).
Proof. intros s. by exists (f s). Qed.

Lemma total_modify_cache f : total (W:=W) (modify_cache f).
Proof. intros s. by exists tt. Qed.

Lemma total_set_mqtt_connected b : total (W:=W) (set_mqtt_connected b).
Proof. intros s. by exists tt. Qed.

Lemma total_set_mqtt_client b : total (W:=W) (set_mqtt_client b).
Proof. intros s. by exists tt. Qed.

Lemma total_datetime_now : total datetime_now.
Proof. intros s. by eexists. Qed.

Lemma total_subscribe topic : total (subscribe topic).
Proof. intros s. by exists tt. Qed.

Lemma total_check_printer_reachable ip port : total (check_printer_reachable ip port).
Proof.
  intros s. unfold check_printer_reachable, call.
  destruct (host_reachable ip port (world s)) as [w' b]. by exists b.
Qed.

Ltac total :=
  repeat first
    [ progress intros
    | apply total_try | apply total_bind | apply total_ret | apply total_get
    | apply total_modify_cache | apply total_set_mqtt_connected
    | apply total_set_mqtt_client | apply total_datetime_now
    | apply total_subscribe | apply total_check_printer_reachable
    | match goal with
      | |- total (if ?b then _ else _) => destruct b
      | |- total (match ?x with _ => _ end) => destruct x
      end ].

Lemma total_dispatch ev : total (dispatch cfg ev).
Proof.
  destruct ev; unfold dispatch, on_mqtt_connect, on_mqtt_message,
    on_mqtt_disconnect; total.
Qed.

Lemma total_deliver evs : total (deliver cfg evs).
Proof.
  induction evs as [|ev evs IH]; simpl; [apply total_ret|].
  apply total_bind; [apply total_dispatch|done].
Qed.

Lemma total_poll_endpoints endpoints : total (poll_endpoints endpoints).
Proof. induction endpoints as [|url rest IH]; simpl; total; exact IH. Qed.

Lemma total_try_http_status ip : total (try_http_status cfg ip).
Proof. unfold try_http_status. total. Qed.

Lemma total_init_mqtt_client : total (init_mqtt_client cfg).
Proof. unfold init_mqtt_client. total. Qed.

Lemma total_get_printer_status : total (get_printer_status cfg).
Proof.
  unfold get_printer_status. total;
    first [apply total_init_mqtt_client | apply total_try_http_status].
Qed.

(** ** Computations that leave a view of the cache alone *)

Section Preserves.

Context {B : Type} (f : printer_cache -> B).

Lemma preserves_ret {A} (a : A) : preserves f (ret a : M (state W) A).
Proof. done. Qed.

Lemma preserves_lift {A} (r : outcome A) : preserves (W:=W) f (lift r).
Proof. done. Qed.

Lemma preserves_get {A} (g : state W -> A) : preserves f (get g).
Proof. done. Qed.

Lemma preserves_call {A} (e : event) (g : W -> W * outcome A) :
  preserves f (call e g).
Proof. intros s. unfold call. by destruct (g (world s)). Qed.

Lemma preserves_set_mqtt_connected b : preserves (W:=W) f (set_mqtt_connected b).
Proof. done. Qed.

Lemma preserves_set_mqtt_client b : preserves (W:=W) f (set_mqtt_client b).
Proof. done. Qed.

Lemma preserves_modify_cache g :
  (forall c, f (g c) = f c) -> preserves (W:=W) f (modify_cache g).
Proof. intros Hg s. apply Hg. Qed.

Lemma bind_preserved {A C} (m : M (state W) A) (k : A -> M (state W) C) s :
  (forall a, preserves f (k a)) ->
  f (_printer_cache (fst (bind m k s))) = f (_printer_cache (fst (m s))).
Proof.
  intros Hk. unfold bind. destruct (m s) as [s' [a|e]]; [apply Hk|done].
Qed.

Lemma preserves_bind {A C} (m : M (state W) A) (k : A -> M (state W) C) :
  preserves f m -> (forall a, preserves f (k a)) -> preserves f (bind m k).
Proof. intros Hm Hk s. by rewrite bind_preserved, Hm. Qed.

Lemma preserves_try {A} (m : M (state W) A) (h : exn -> M (state W) A) :
  preserves f m -> (forall e, preserves f (h e)) -> preserves f (try_except m h).
Proof.
  intros Hm Hh s. unfold try_except. specialize (Hm s).
  destruct (m s) as [s' [a|e]]; [done|]. simpl in Hm. by rewrite Hh.
Qed.

End Preserves.

Ltac preserve :=
  repeat first
    [ progress intros
    | apply preserves_try | apply preserves_bind | apply preserves_ret
    | apply preserves_lift | apply preserves_get | apply preserves_call
    | apply preserves_set_mqtt_connected | apply preserves_set_mqtt_client
    | apply preserves_modify_cache; reflexivity
    | match goal with
      | |- preserves _ (if ?b then _ else _) => destruct b
      | |- preserves _ (match ?x with _ => _ end) => destruct x
      end ].

(** ** Reads during which no probe delivers data *)

Lemma quiet_dispatch ev :
  is_message ev = false -> preserves data_of (dispatch cfg ev).
Proof.
  destruct ev; [|done|]; intros _;
    unfold dispatch, on_mqtt_connect, on_mqtt_disconnect, subscribe; preserve.
Qed.

Lemma quiet_deliver evs :
  forallb (fun ev => negb (is_message ev)) evs = true ->
  preserves data_of (deliver cfg evs).
Proof.
  induction evs as [|ev evs IH]; simpl; intros Hq; [done|].
  apply andb_true_iff in Hq as [Hev Hevs].
  apply preserves_bind; [|intros _; by apply IH].
  apply quiet_dispatch. by destruct (is_message ev).
Qed.

Lemma quiet_init_mqtt_client :
  no_push_data -> preserves data_of (init_mqtt_client cfg).
Proof.
  intros Hpush. unfold init_mqtt_client.
  destruct (negb (MQTT_AVAILABLE cfg)); [done|].
  destruct (String.eqb (PRINTER_IP cfg) ""); [done|].
  destruct (_ || _); [done|].
  do 2 (apply preserves_bind; [apply preserves_get|intros ?]).
  destruct (_ && _); [done|].
  apply preserves_try; [|done].
  apply preserves_bind; [apply preserves_call|intros now].
  apply preserves_bind; [apply preserves_call|intros _].
  apply preserves_bind; [apply preserves_set_mqtt_client|intros _].
  intros s. unfold bind at 1. unfold call.
  destruct (host_mqtt_connect _ _ (world s)) as [w' [delivered|e]] eqn:Hc;
    [|done].
  apply Hpush in Hc. simpl.
  rewrite bind_preserved by (intros; apply preserves_get).
  by rewrite (quiet_deliver delivered Hc).
Qed.

Lemma quiet_poll_endpoints endpoints :
  (forall url w w' response,
      host_http_get url w = (w', Returned response) ->
      status_code response <> 200%Z) ->
  preserves data_of (poll_endpoints endpoints).
Proof.
  intros Hpoll. induction endpoints as [|url rest IH]; [done|].
  simpl. apply preserves_bind; [|intros [|]; [done|exact IH]].
  intros s. unfold try_except, bind, requests_get, call.
  destruct (host_http_get url (world s)) as [w' [response|e]] eqn:Hget;
    [|done].
  apply Hpoll in Hget. apply Z.eqb_neq in Hget. simpl. by rewrite Hget.
Qed.

Lemma quiet_try_http_status ip :
  (forall url w w' response,
      host_http_get url w = (w', Returned response) ->
      status_code response <> 200%Z) ->
  preserves data_of (try_http_status cfg ip).
Proof.
  intros Hpoll. unfold try_http_status.
  destruct (REQUESTS_AVAILABLE cfg); [|done].
  apply preserves_try; [by apply quiet_poll_endpoints|done].
Qed.

(** What a read returns is the cache it leaves behind. *)
Lemma returns_cache_bind {A} (m : M (state W) A) (k : A -> M (state W) printer_cache) :
  total m ->
  (forall a s, snd (k a s) = Returned (_printer_cache (fst (k a s)))) ->
  forall s, snd (bind m k s) = Returned (_printer_cache (fst (bind m k s))).
Proof.
  intros Hm Hk s. unfold bind. destruct (Hm s) as [a Ha].
  destruct (m s) as [s' r]; simpl in Ha; subst r. apply Hk.
Qed.

Lemma get_printer_status_returns s :
  snd (get_printer_status cfg s)
  = Returned (_printer_cache (fst (get_printer_status cfg s))).
Proof.
  revert s. unfold get_printer_status.
  apply returns_cache_bind; [apply total_get|intros c].
  apply returns_cache_bind; [total|intros _].
  destruct (String.eqb (PRINTER_IP cfg) ""); [done|].
  apply returns_cache_bind; [apply total_get|intros connected].
  apply returns_cache_bind; [total; apply total_init_mqtt_client|intros _].
  apply returns_cache_bind; [apply total_get|intros connected'].
  destruct connected'; [done|].
  apply returns_cache_bind; [apply total_check_printer_reachable|intros r].
  apply returns_cache_bind; [total; apply total_try_http_status|intros _].
  done.
Qed.

(** The cache a quiet read leaves behind: the stored data, with the
    [connected] flag lowered when the cache is stale. *)
Lemma quiet_read s :
  no_push_data -> no_poll_data ->
  data_of (_printer_cache (fst (get_printer_status cfg s)))
  = data_of (if stale (_printer_cache s) (world s)
             then with_connected false (_printer_cache s)
             else _printer_cache s).
Proof.
  intros Hpush Hpoll. unfold get_printer_status.
  unfold bind at 1. simpl.
  rewrite bind_preserved.
  - unfold stale. destruct (last_update (_printer_cache s)) as [last|]; [|done].
    unfold bind, datetime_now, call. simpl.
    by destruct (host_now (world s) - last >? staleness)%Z.
  - intros _. destruct (String.eqb (PRINTER_IP cfg) ""); [done|].
    apply preserves_bind; [apply preserves_get|intros connected].
    apply preserves_bind.
    { destruct (negb connected); [|done].
      apply preserves_bind; [by apply quiet_init_mqtt_client|done]. }
    intros _. apply preserves_bind; [apply preserves_get|intros connected'].
    destruct connected'; [done|].
    destruct Hpoll as [Hunreachable | Hno200].
    + intros s'. unfold bind at 1. unfold check_printer_reachable, call.
      specialize (Hunreachable (PRINTER_IP cfg) 80%Z (world s')).
      destruct (host_reachable (PRINTER_IP cfg) 80 (world s')) as [w' reachable].
      simpl in Hunreachable. by subst reachable.
    + apply preserves_bind; [apply preserves_call|intros reachable].
      apply preserves_bind; [|done].
      destruct reachable; [|done].
      apply preserves_bind; [by apply quiet_try_http_status|done].
Qed.



(** C8.  The status read never fails: [get_printer_status] always returns
    a snapshot, and [get_status] always answers 200 with that snapshot as
    its body, whatever the probes do (connection attempts that raise,
    unreachable hosts, malformed answers).  When no probe delivers data,
    the snapshot is the cached data, with [connected] lowered if and only
    if the cache is stale. *)
Theorem status_never_fails s :
  exists snapshot,
    snd (get_printer_status cfg s) = Returned snapshot
    /\ get_status cfg s
       = (fst (get_printer_status cfg s),
          Returned (Response (status_body snapshot) 200))
    /\ (no_push_data -> no_poll_data ->
        data_of snapshot
        = data_of (if stale (_printer_cache s) (world s)
                   then with_connected false (_printer_cache s)
                   else _printer_cache s)).
Proof.
  exists (_printer_cache (fst (get_printer_status cfg s))).
  pose proof (get_printer_status_returns s) as Hret.
  split; [done|]. split.
  - unfold get_status, try_except, bind.
    destruct (get_printer_status cfg s) as [s' r]; simpl in *. by subst r.
  - intros Hpush Hpoll. by apply quiet_read.
Qed.

(** C9.  While the MQTT channel is not connected, each of the three
    control views answers 400 and leaves the process state as it found it:
    nothing is published and the cache is untouched.  For an action other
    than pause, resume and stop, [control_printer] returns [False], again
    without any change of state. *)
Theorem control_requires_mqtt s action :
  (_mqtt_connected s = false ->
   pause cfg s = (s, Returned lan_only_response)
   /\ resume cfg s = (s, Returned lan_only_response)
   /\ stop cfg s = (s, Returned lan_only_response)
   /\ code lan_only_response = 400%Z)
  /\ (action <> "pause" -> action <> "resume" -> action <> "stop" ->
      control_printer cfg action s = (s, Returned false)).
Proof.
  split.
  - intros Hoff.
    unfold pause, resume, stop, control_view, try_except, bind, get.
    simpl. rewrite Hoff. done.
  - intros Hp Hr Hs. unfold control_printer, bind, get. simpl.
    destruct (_mqtt_connected s); [|done]. simpl.
    unfold command_map.
    rewrite !lookup_insert_ne by done.
    by rewrite lookup_singleton_ne.
Qed.

(** ** Merging *)


















(** ** Reports processed to the end, and reports that raise midway *)








End PrinterFacts.

(** ** The game server controller on concrete machines *)

Section MinecraftExamples.

Import Minecraft Deployments.
#[local] Open Scope list_scope.

#[local] Abbreviation cfg := default_config.

Lemma precondition_violations_witness :
  (@running nat (machine_host idle) cfg boot = false
   /\ @stop nat (machine_host idle) cfg boot
      = (@after_detection nat (machine_host idle) cfg boot,
         Returned (error_response "Server is not running" 400))
      /\ actions cfg (trace (fst (@stop nat (machine_host idle) cfg boot)))
         = actions cfg (trace boot))
  /\ (@running nat (machine_host supervised) cfg boot = true
      /\ @start nat (machine_host supervised) cfg boot
         = (@after_detection nat (machine_host supervised) cfg boot,
            Returned (error_response "Server is already running" 400))
         /\ actions cfg (trace (fst (@start nat (machine_host supervised) cfg boot)))
            = actions cfg (trace boot)).
Proof.
  split.
  - split; [reflexivity|].
    apply (proj1 (@precondition_violations nat (machine_host idle) cfg boot)).
    reflexivity.
  - split; [reflexivity|].
    apply (proj2 (@precondition_violations nat (machine_host supervised) cfg boot)).
    reflexivity.
Defined.

(** C7, counterexample.  On a machine without systemd the service-manager
    query raises; detection answers "stopped" after that single probe,
    although the session-manager query reports the server's session. *)
Lemma detection_counterexample :
  snd (@is_server_running nat (machine_host no_systemd) cfg boot) = Returned false
  /\ trace (fst (@is_server_running nat (machine_host no_systemd) cfg boot))
     = [ERun is_active_argv 2]
  /\ session_verdict cfg
       (snd (@host_run nat (machine_host no_systemd) (screen_ls_argv cfg) 2 0%nat))
     = Positive.
Proof. repeat split; reflexivity. Qed.

Lemma detection_first_positive_witness :
  world (fst (@is_server_running nat (machine_host supervised) cfg boot))
  = world boot
  /\ snd (@is_server_running nat (machine_host supervised) cfg
            (fst (@is_server_running nat (machine_host supervised) cfg boot)))
     = snd (@is_server_running nat (machine_host supervised) cfg boot).
Proof.
  split; [reflexivity|].
  apply (proj2 (proj2 (@detection_first_positive nat (machine_host supervised)
                         cfg boot))).
  reflexivity.
Defined.

(** C1, counterexample.  The server runs in a screen session and the unit
    is inactive; [systemctl stop] exits with 0.  [stop] answers "stopped"
    right after that first action: no wait and no detection follow it, and
    the server is still detected as running afterwards. *)
Lemma stop_escalation_counterexample :
  @running nat (machine_host stale_unit) cfg boot = true
  /\ snd (@stop nat (machine_host stale_unit) cfg boot) = Returned stopped
  /\ trace (fst (@stop nat (machine_host stale_unit) cfg boot))
     = [ERun is_active_argv 2; ERun (screen_ls_argv cfg) 2;
        ERun systemctl_stop_argv 10]
  /\ @running nat (machine_host stale_unit) cfg
       (fst (@stop nat (machine_host stale_unit) cfg boot)) = true.
Proof. repeat split; reflexivity. Qed.

Lemma stop_escalation_witness :
  @running nat (machine_host console_stop) cfg boot = true
  /\ snd (@stop nat (machine_host console_stop) cfg boot) = Returned stopped
  /\ actions cfg (trace (fst (@stop nat (machine_host console_stop) cfg boot)))
     = [ERun systemctl_stop_argv 10;
        ERun (mcrcon_stop_argv cfg "/usr/bin/mcrcon") 10;
        ERun (screen_stop_argv cfg) 5].
Proof.
  split; [reflexivity|].
  destruct (@stop_escalation nat (machine_host console_stop) cfg boot eq_refl)
    as (_ & _ & _ & _ & Hthree).
  destruct (Hthree 0%nat (Completed 5 "" "") 0%nat (Completed 1 "" "")
                   3%nat (Completed 0 "" ""))
    as [Hstop Hactions]; try reflexivity.
  - simpl. lia.
  - split; [by rewrite Hstop|]. by rewrite Hactions.
Defined.

(** C2, counterexample.  Neither SIGTERM nor SIGKILL ends the process.
    [stop] goes through every step, the last action it issues is the kill,
    and it answers [{"status": "stopped"}] with 200 while the server is
    still detected as running. *)
Lemma stop_outcomes_counterexample :
  snd (@stop nat (machine_host unkillable) cfg boot)
  = Returned (Response [("status", JStr "stopped")] 200)
  /\ last (trace (fst (@stop nat (machine_host unkillable) cfg boot)))
     = Some (EKill 4242)
  /\ @running nat (machine_host unkillable) cfg
       (fst (@stop nat (machine_host unkillable) cfg boot)) = true.
Proof. repeat split; reflexivity. Qed.

Lemma stop_outcomes_witness :
  @running nat (machine_host unkillable) cfg boot = true
  /\ exists s3,
      @stop nat (machine_host unkillable) cfg boot
      = (fst (@kill_step nat (machine_host unkillable) s3), Returned stopped).
Proof.
  split; [reflexivity|].
  eexists.
  eapply (proj2 (@stop_outcomes nat (machine_host unkillable) cfg boot)
            0%nat (Completed 5 "" "")); try reflexivity.
  simpl. lia.
Defined.

(** C3, counterexample.  [systemctl stop] times out, so the stop phase
    fails with 500; the unit goes down while [restart] sleeps.  [restart]
    answers "restarting" with 200 instead of the stop failure, and it has
    issued a start action. *)
Lemma restart_counterexample :
  snd (@stop nat (machine_host slow_stop) cfg
         (@after_detection nat (machine_host slow_stop) cfg boot))
  = Returned (error_response
                "Command '['sudo', 'systemctl', 'stop', 'minecraft']' timed out after 10 seconds"
                500)
  /\ snd (@restart nat (machine_host slow_stop) cfg boot)
     = Returned (Response [("status", JStr "restarting")] 200)
  /\ actions cfg (trace (fst (@restart nat (machine_host slow_stop) cfg boot)))
     = [ERun systemctl_stop_argv 10; ERun systemctl_start_argv 5].
Proof. repeat split; reflexivity. Qed.

Lemma restart_discards_stop_witness :
  @running nat (machine_host unkillable) cfg
    (fst (@time_sleep nat (machine_host unkillable) 2
            (fst (@stop nat (machine_host unkillable) cfg
                    (@after_detection nat (machine_host unkillable) cfg boot)))))
  = true
  /\ actions cfg (trace (fst (@restart nat (machine_host unkillable) cfg boot)))
     = actions cfg
         (trace
            (fst (@time_sleep nat (machine_host unkillable) 2
                    (fst (@stop nat (machine_host unkillable) cfg
                            (@after_detection nat (machine_host unkillable) cfg
                               boot)))))).
Proof.
  split; [reflexivity|].
  apply (proj2 (@restart_discards_stop nat (machine_host unkillable) cfg boot)).
  reflexivity.
Defined.

(** C10, the failing request.  With [?lines=0] the slice is
    [log_lines[-0:]], which is the whole list: on a log of 501 lines the
    response carries all 501 of them, more than the limit of 500 and not
    the last [min(0, 500, 501) = 0] lines. *)
Theorem get_log_zero_returns_all :
  snd (@get_log nat (machine_host (with_log (numbered 501))) cfg (LinesInt 0) boot)
  = Returned (jsonify [("status", JStr "ok");
                       ("lines", JArr (JStr <$> numbered 501));
                       ("total_lines", JNum 501)])
  /\ length (numbered 501) = 501%nat.
Proof. split; vm_compute; reflexivity. Qed.

End MinecraftExamples.

(** ** The printer controller on concrete networks *)

Section PrinterExamples.

Import Printer Networks.
#[local] Open Scope list_scope.

Lemma offline_no_push_data : @no_push_data Z (network_host offline).
Proof. intros ip port w w' delivered Hc. simpl in Hc. discriminate. Qed.

Lemma offline_no_poll_data : @no_poll_data Z (network_host offline).
Proof. left. intros ip port w. reflexivity. Qed.





Lemma status_never_fails_witness :
  exists snapshot,
    snd (@get_printer_status Z (network_host offline) lan_config
           two_minutes_later) = Returned snapshot
    /\ @get_status Z (network_host offline) lan_config two_minutes_later
       = (fst (@get_printer_status Z (network_host offline) lan_config
                 two_minutes_later),
          Returned (Response (status_body snapshot) 200))
    /\ data_of snapshot
       = data_of (with_connected false (_printer_cache two_minutes_later)).
Proof.
  destruct (@status_never_fails Z (network_host offline) lan_config
              two_minutes_later) as (snapshot & Hret & Hstatus & Hquiet).
  exists snapshot. split; [exact Hret|]. split; [exact Hstatus|].
  apply (Hquiet offline_no_push_data offline_no_poll_data).
Defined.

Lemma control_requires_mqtt_witness :
  (_mqtt_connected one_second_later = false
   /\ @pause Z (network_host offline) lan_config one_second_later
      = (one_second_later, Returned lan_only_response))
  /\ @control_printer Z (network_host offline) lan_config "cancel"
       (State 0%Z printing true true [])
     = (State 0%Z printing true true [], Returned false).
Proof.
  split.
  - split; [reflexivity|].
    apply (proj1 (@control_requires_mqtt Z (network_host offline) lan_config
                    one_second_later "cancel")).
    reflexivity.
  - apply (proj2 (@control_requires_mqtt Z (network_host offline) lan_config
                    (State 0%Z printing true true []) "cancel"));
      discriminate.
Defined.

End PrinterExamples.
